(** * sms-backup.py: the message resolution engine

    A shallow embedding of [src/sms-backup.py] (Python 2) and the properties
    of its phone normaliser, group resolver, alias resolver, query planner,
    message classifier and human renderer.

    Conventions of the embedding.
    - A Python string is a [string]; one [ascii] stands for one byte of a
      [str] or one code point of a [unicode] object.  Characters from 128
      upwards are the non-ASCII ones.
    - A function that can raise returns a [res]: [Ok v] or [Raise e].
    - The sqlite snapshot [COPY_DB] is a pair of tables, each the list of
      its rows in scan order.
    - Python's codecs and [strftime] belong to the runtime, not to the
      script: they are parameters of the development.
    - Calls to [logging] only print and are left out, but for the one of
      [main] whose argument can raise while it is built ([log_params]). *)

From Stdlib Require Import ZArith NArith String Ascii List Lia.
From stdpp Require Import base option list gmap strings sorting.

Set Default Proof Using "Type".

Local Open Scope Z_scope.

(** ** Exceptions *)

Inductive exn : Type :=
| TypeError
| ValueError
| AttributeError
| UnboundLocalError
| UnicodeError
| DatabaseError.

Inductive res (A : Type) : Type :=
| Ok (a : A)
| Raise (e : exn).

Arguments Ok {A} a.
Arguments Raise {A} e.

Global Instance res_ret : MRet res := λ A a, Ok a.

Global Instance res_bind : MBind res := λ A B f m,
  match m with
  | Ok a => f a
  | Raise e => Raise e
  end.

Definition is_Ok {A} (m : res A) : Prop := ∃ a, m = Ok a.

(** [of_option e o]: a runtime call that either answers or raises [e]. *)
Definition of_option {A} (e : exn) (o : option A) : res A :=
  match o with
  | Some a => Ok a
  | None => Raise e
  end.

(** ** Python strings *)

(** [len(s)] *)
Definition len (s : string) : Z := Z.of_nat (String.length s).

(** The position a slice bound [i] denotes in a sequence of length [n]:
    a negative bound counts from the end, and both ends are clamped. *)
Definition slice_bound (n i : Z) : Z :=
  if i <? 0 then Z.max 0 (n + i) else Z.min i n.

(** [s[lo:hi]] *)
Definition slice (s : string) (lo hi : Z) : string :=
  let a := slice_bound (len s) lo in
  let b := slice_bound (len s) hi in
  substring (Z.to_nat a) (Z.to_nat (b - a)) s.

(** [s[lo:]] *)
Definition slice_from (s : string) (lo : Z) : string :=
  slice s lo (len s).

(** [s[0]], for a non-empty [s] *)
Definition first_char (s : string) : option ascii := String.get 0 s.

(** [\d] without the UNICODE flag: the ten characters 0 to 9. *)
Definition is_digit (c : ascii) : bool :=
  (Ascii.leb "0" c && Ascii.leb c "9")%char.

(** A character an implicit ASCII encoding accepts. *)
Definition is_ascii (c : ascii) : bool := (N_of_ascii c <? 128)%N.

Fixpoint string_forallb (p : ascii → bool) (s : string) : bool :=
  match s with
  | EmptyString => true
  | String c s' => p c && string_forallb p s'
  end.

(** [u.decode('utf-8')] on a [unicode] object [u]: Python 2 first encodes
    [u] with the default codec, ASCII, which raises on any other character,
    and decoding the ASCII bytes gives [u] back. *)
Definition unicode_decode (u : string) : res string :=
  if string_forallb is_ascii u then Ok u else Raise UnicodeError.

(** [s.ljust(width)] and [s.rjust(width)], the padding of the format
    specifications [{:w}] and [{:>w}] on strings. *)
Definition spaces (n : nat) : string :=
  string_of_list_ascii (replicate n " "%char).

Definition ljust (s : string) (width : nat) : string :=
  s +:+ spaces (width - String.length s).

Definition rjust (s : string) (width : nat) : string :=
  spaces (width - String.length s) +:+ s.

(** ** PhoneNormalizer *)

(** [strip]: [re.sub('[^\d]', '', phone)] *)
Fixpoint strip (phone : string) : string :=
  match phone with
  | EmptyString => EmptyString
  | String c rest => if is_digit c then String c (strip rest) else strip rest
  end.

(** ["(%s) %s-%s" % (ph[-10:-7], ph[-7:-4], ph[-4:])] *)
Definition us_format (ph : string) : string :=
  "(" +:+ slice ph (-10) (-7) +:+ ") " +:+ slice ph (-7) (-4) +:+ "-"
      +:+ slice_from ph (-4).

(** [format_phone], on the [unicode] address of a row.  When none of the
    three tests holds [phone] keeps the argument it was called with. *)
Definition format_phone (phone : string) : res string :=
  let ph := strip phone in
  let phone :=
    if len ph <? 10 then ph
    else if len ph =? 10 then us_format ph
    else if (len ph =? 11) && bool_decide (first_char ph = Some "1"%char)
         then us_format ph
    else phone in
  unicode_decode phone.

(** [valid_phone] *)
Definition valid_phone (phone : string) : bool :=
  let stripped := strip phone in
  if 5 <=? len stripped then true else false.

(** ** The message store *)

(** A row of [group_member]: the conversation group and one address it is
    stored under.  The columns are taken as declared, [group_id INTEGER]
    and [address TEXT], and as filled in: a NULL is not part of the
    model. *)
Record group_member : Type := {
  member_group_id : Z;
  member_address : string
}.

(** A row of [message], with the columns the script selects.  [address]
    and [text] may be absent (NULL, Python's [None]), the cases [skip_row]
    tests for; the integer columns are taken as filled in. *)
Record message_row : Type := {
  rowid : Z;
  date : Z;
  address : option string;
  text : option string;
  flags : Z;
  group_id : Z
}.

Record database : Type := {
  group_member_table : list group_member;
  message_table : list message_row
}.

(** sqlite's [LIKE] compares ASCII letters without regard to case. *)
Definition fold_case (c : ascii) : ascii :=
  let n := N_of_ascii c in
  if ((97 <=? n) && (n <=? 122))%N then ascii_of_N (n - 32) else c.

(** [subject LIKE pattern]: [%] stands for any run of characters, [_] for
    any one character. *)
Fixpoint like (pattern subject : string) : bool :=
  match pattern with
  | EmptyString =>
      match subject with
      | EmptyString => true
      | String _ _ => false
      end
  | String p pattern' =>
      if Ascii.eqb p "%" then
        (fix skip (s : string) : bool :=
           like pattern' s ||
           match s with
           | EmptyString => false
           | String _ s' => skip s'
           end) subject
      else
        match subject with
        | EmptyString => false
        | String c subject' =>
            (Ascii.eqb p "_" || Ascii.eqb (fold_case p) (fold_case c))
            && like pattern' subject'
        end
  end.

(** [s] ends with [suffix]: the reading of the [LIKE] above that the
    resolver relies on, as a test of its own. *)
Fixpoint has_suffix (suffix s : string) : bool :=
  String.eqb s suffix ||
  match s with
  | EmptyString => false
  | String _ s' => has_suffix suffix s'
  end.

(** The two statements [build_msg_query] can plan. *)
Definition select_all : string :=
  "select rowid, date, address, text, flags, group_id "
  +:+ "from message "
  +:+ "order by rowid".

Definition select_in (qmarks : string) : string :=
  "select rowid, date, address, text, flags, group_id "
  +:+ "from message "
  +:+ "where group_id in (" +:+ qmarks +:+ ") "
  +:+ "order by rowid".

(** [question_marks_placeholder] *)
Definition question_marks_placeholder (num : nat) : string :=
  String.concat ", " (replicate num "?"%string).

(** [order by rowid] *)
Definition by_rowid : relation message_row :=
  λ r1 r2, rowid r1 ≤ rowid r2.

Global Instance by_rowid_dec r1 r2 : Decision (by_rowid r1 r2).
Proof. unfold by_rowid. apply _. Defined.

(** ** Resolved messages *)

(** The dictionary [{'date': .., 'from': .., 'to': .., 'text': ..}]. *)
Record message : Type := {
  msg_date : string;
  msg_from : string;
  msg_to : string;
  msg_text : string
}.

(** [skip_row] *)
Definition skip_row (row : message_row) : bool :=
  if negb ((flags row =? 2) || (flags row =? 3)) then true
  else if bool_decide (address row = None ∨ address row = Some EmptyString)
       then true
  else if bool_decide (text row = None ∨ text row = Some EmptyString)
       then true
  else false.

(** [max(l)], which raises on the empty list. *)
Definition py_max (l : list nat) : res nat :=
  match l with
  | [] => Raise ValueError
  | x :: l' => Ok (foldl Nat.max x l')
  end.

(** [alias_map] and [validate_aliases] match an alias against
    [^([^=]+)=([^=]+)$]: one equals sign, with a non-empty text on either
    side.  [split_eq] cuts at the first equals sign. *)
Fixpoint split_eq (a : string) : option (string * string) :=
  match a with
  | EmptyString => None
  | String c a' =>
      if Ascii.eqb c "=" then Some (EmptyString, a')
      else match split_eq a' with
           | Some (l, r) => Some (String c l, r)
           | None => None
           end
  end.

Definition not_eq_sign (c : ascii) : bool := negb (Ascii.eqb c "=").

Definition match_alias (a : string) : option (string * string) :=
  match split_eq a with
  | Some (number, name) =>
      if negb (String.eqb number EmptyString)
         && negb (String.eqb name EmptyString)
         && string_forallb not_eq_sign name
      then Some (number, name)
      else None
  | None => None
  end.

(** [validate_aliases] *)
Fixpoint validate_alias_list (aliases : list string) : res unit :=
  match aliases with
  | [] => Ok ()
  | a :: rest =>
      match match_alias a with
      | None => Raise ValueError
      | Some (number, _) =>
          if valid_phone number then validate_alias_list rest
          else Raise ValueError
      end
  end.

Definition validate_aliases (aliases : option (list string)) : res unit :=
  match aliases with
  | Some l => validate_alias_list l
  | None => Ok ()
  end.

(** The text [format_phone] writes for ten digits. *)
Definition us_text (c0 c1 c2 c3 c4 c5 c6 c7 c8 c9 : ascii) : string :=
  String "(" (String c0 (String c1 (String c2 (String ")" (String " "
  (String c3 (String c4 (String c5 (String "-" (String c6 (String c7
  (String c8 (String c9 EmptyString))))))))))))).

(** [validate_numbers] *)
Fixpoint validate_number_list (numbers : list string) : res unit :=
  match numbers with
  | [] => Ok ()
  | n :: rest =>
      if valid_phone n then validate_number_list rest else Raise ValueError
  end.

Definition validate_numbers (numbers : option (list string)) : res unit :=
  match numbers with
  | Some l => validate_number_list l
  | None => Ok ()
  end.

(** [validate], on [args.aliases] and [args.numbers]: the [except] clause
    prints the error and raises it again. *)
Definition validate (aliases numbers : option (list string)) : res unit :=
  _ ← validate_aliases aliases;
  validate_numbers numbers.

(** ** Finding the store *)

(** [os.path.join(a, b)] of [posixpath]. *)
Definition path_join (a b : string) : string :=
  if String.prefix "/" b then b
  else if String.eqb a EmptyString || has_suffix "/" a then a +:+ b
  else a +:+ "/" +:+ b.

Definition db_name : string := "3d0d7e5fb2ce288813306e4d4636395e047a3d28".

(** [fnmatch.fnmatch(basename, db_name)]: [db_name] holds no wildcard and
    [posixpath] keeps the case, so the match is equality. *)
Definition is_db_name (basename : string) : Prop := basename = db_name.

Global Instance is_db_name_dec basename : Decision (is_db_name basename).
Proof. unfold is_db_name. apply _. Defined.

(** The paths [find_sms_db] collects from one [(root, dirs, files)] of
    [os.walk]. *)
Definition db_paths_in (entry : string * list string * list string)
    : list string :=
  let '(root, _, files) := entry in
  path_join root <$> filter is_db_name files.

(** [find_sms_db], on what [os.walk(mac_dir)] yields. *)
Definition find_sms_db (walk : list (string * list string * list string))
    : option string :=
  let paths := walk ≫= db_paths_in in
  match paths with
  | [] => None
  | [path] => Some path
  | _ :: _ :: _ => None
  end.

(** The number of question marks in a statement. *)
Fixpoint count_qmarks (s : string) : nat :=
  match s with
  | EmptyString => 0
  | String c s' => (if Ascii.eqb c "?" then 1 else 0) + count_qmarks s'
  end.

(** A clock for the examples: it knows the time stamps from the epoch on
    and writes each of them as the same text. *)
Definition epoch_strftime (t : Z) (format : string) : option string :=
  if t <? 0 then None else Some "1970-01-01 00:00:00"%string.

(** ** A sample snapshot and runtime

    One conversation group, stored under two spellings of its number (the
    docstring of [query_group_ids] lists such spellings), and two messages
    of that conversation. *)
Definition sample_db : database := {|
  group_member_table :=
    [ {| member_group_id := 7; member_address := "+15555551212" |};
      {| member_group_id := 7; member_address := "(555) 555-1212" |} ];
  message_table :=
    [ {| rowid := 2; date := 60; address := Some "5555551212"%string;
         text := Some "yo"%string; flags := 3; group_id := 7 |};
      {| rowid := 1; date := 0; address := Some "5555551212"%string;
         text := Some "hi"%string; flags := 2; group_id := 7 |} ]
|}.

(** The UTF-8 codec on ASCII bytes, which it leaves as they are. *)
Definition ascii_decode (s : string) : option string :=
  if string_forallb is_ascii s then Some s else None.

(** The writer of [msgs_csv] and the string encoder of [msgs_json] on
    plain text (no quote, backslash, line break or control character),
    which both only put between quotes. *)
Definition quoted (s : string) : string :=
  String "034" s +:+ String "034" EmptyString.

Definition plain_writerow (fields : list string) : string :=
  String.concat "," (quoted <$> fields)
  +:+ String "013" (String "010" EmptyString).

(** ** The engine, over one snapshot and one runtime *)

Section Engine.

(** The global [COPY_DB]: the working copy every query reads. *)
Variable COPY_DB : database.

(** [s.decode('utf-8')] on a byte string of the command line; [None] when
    the codec raises. *)
Variable utf8_decode : string → option string.

(** [u.encode('utf-8')] *)
Variable utf8_encode : string → string.

(** [datetime.fromtimestamp(t).strftime(format)], in the local time zone;
    [None] when the time stamp is out of the platform's range. *)
Variable strftime : Z → string → option string.

(** *** GroupResolver *)

(** [query_group_ids]: the statement
    [select group_id from group_member where STRIP(address) like ?]
    with the parameter ['%' + ph[-10:]]; [None] when no row comes back. *)
Definition query_group_ids (phone : string) : option (list Z) :=
  let ph := strip phone in
  let param := "%" +:+ slice_from ph (-10) in
  let result :=
    filter (λ r, like param (strip (member_address r)) = true)
           (group_member_table COPY_DB) in
  match result with
  | [] => None
  | _ :: _ => Some (member_group_id <$> result)
  end.

(** *** AliasResolver *)

(** The inner loop of [alias_map]:
    [for gid in group_ids: result[gid] = name.decode('utf-8')] *)
Fixpoint alias_register (name : string) (group_ids : list Z)
    (result : gmap Z string) : res (gmap Z string) :=
  match group_ids with
  | [] => Ok result
  | gid :: rest =>
      alias ← of_option UnicodeError (utf8_decode name);
      alias_register name rest (<[gid := alias]> result)
  end.

(** The outer loop of [alias_map], [for a in aliases]. *)
Fixpoint alias_loop (aliases : list string) (result : gmap Z string)
    : res (gmap Z string) :=
  match aliases with
  | [] => Ok result
  | a :: rest =>
      m ← of_option AttributeError (match_alias a);
      let '(number, name) := m in
      match query_group_ids number with
      | Some group_ids =>
          result' ← alias_register name group_ids result;
          alias_loop rest result'
      | None => alias_loop rest result
      end
  end.

(** [alias_map] *)
Definition alias_map (aliases : option (list string)) : res (gmap Z string) :=
  match aliases with
  | Some l => alias_loop l ∅
  | None => Ok ∅
  end.

(** *** QueryPlanner *)

(** The loop of [build_msg_query] that collects the group ids. *)
Definition collect_group_ids (numbers : option (list string)) : list Z :=
  match numbers with
  | Some l =>
      foldl (λ group_ids n,
               match query_group_ids n with
               | Some gids => group_ids ++ gids
               | None => group_ids
               end) [] l
  | None => []
  end.

(** [build_msg_query]: the statement and its parameters. *)
Definition build_msg_query (numbers : option (list string))
    : string * list Z :=
  let group_ids := collect_group_ids numbers in
  match group_ids with
  | _ :: _ =>
      let qmarks := question_marks_placeholder (length group_ids) in
      (select_in qmarks, group_ids)
  | [] => (select_all, [])
  end.

(** What the statement planned for [numbers] selects, before the rows are
    put in order: every row, or the rows of the collected groups. *)
Definition selection (numbers : option (list string)) : list message_row :=
  let group_ids := collect_group_ids numbers in
  match group_ids with
  | [] => message_table COPY_DB
  | _ :: _ => filter (λ r, group_id r ∈ group_ids) (message_table COPY_DB)
  end.

(** [cur.execute(query, params)] for the two statements above: the rows
    the cursor then holds, in the order in which [for row in cur] would go
    through them.  Any other statement, or a number of parameters that
    differs from the number of question marks, is refused.  [main] has two
    logging calls between the execution and its loop ([main_messages]). *)
Definition execute (query : string) (params : list Z)
    : option (list message_row) :=
  if String.eqb query select_all then
    match params with
    | [] => Some (merge_sort by_rowid (message_table COPY_DB))
    | _ :: _ => None
    end
  else if String.eqb query
            (select_in (question_marks_placeholder (length params))) then
    Some (merge_sort by_rowid
            (filter (λ r, group_id r ∈ params) (message_table COPY_DB)))
  else None.

(** *** MessageClassifier *)

(** [convert_date] *)
Definition convert_date (unix_date : Z) (format : string) : res string :=
  ds ← of_option ValueError (strftime unix_date format);
  of_option UnicodeError (utf8_decode ds).

(** [convert_address].  [me] is the byte string of the command line;
    [format_phone] on an absent address raises in [re.sub]; a row whose
    flag is neither 2 nor 3 leaves [from_addr] and [to_addr] unbound. *)
Definition convert_address (row : message_row) (me : string)
    (alias_map : gmap Z string) : res (string * string) :=
  me ← of_option UnicodeError (utf8_decode me);
  address ← match address row with
            | Some a => format_phone a
            | None => Raise TypeError
            end;
  let other :=
    match alias_map !! group_id row with
    | Some alias => alias
    | None => address
    end in
  if flags row =? 2 then Ok (other, me)
  else if flags row =? 3 then Ok (me, other)
  else Raise UnboundLocalError.

(** The body of the loop of [main] on one row: [None] when the row is
    skipped, the message otherwise.  A row that is not skipped has a text,
    which becomes the text of the message. *)
Definition classify (date_format identity : string)
    (aliases : gmap Z string) (row : message_row) : res (option message) :=
  if skip_row row then Ok None
  else
    fmt_date ← convert_date (date row) date_format;
    addrs ← convert_address row identity aliases;
    let fmt_text := default EmptyString (text row) in
    Ok (Some {| msg_date := fmt_date;
                msg_from := addrs.1;
                msg_to := addrs.2;
                msg_text := fmt_text |}).

(** The loop of [main], [for row in cur], started with [messages = []]:
    a skipped row leaves [messages] as it is, any other row appends its
    message. *)
Fixpoint classify_rows (date_format identity : string)
    (aliases : gmap Z string) (rows : list message_row)
    (messages : list message) : res (list message) :=
  match rows with
  | [] => Ok messages
  | row :: rest =>
      m ← classify date_format identity aliases row;
      classify_rows date_format identity aliases rest
        (match m with
         | Some msg => messages ++ [msg]
         | None => messages
         end)
  end.

(** The second logging call of [main], between [cur.execute] and the
    loop: its argument is
    ["With query params: (%s)" % (params if params else '')], and [%] with
    one conversion on a tuple of two or more values raises [TypeError]
    before [logging.info] is entered, at any logging level. *)
Definition log_params (params : list Z) : res unit :=
  match params with
  | _ :: _ :: _ => Raise TypeError
  | _ => Ok ()
  end.

(** [main] from [build_msg_query] to the end of its loop: the list
    [messages] that [output] is called with. *)
Definition main_messages (numbers : option (list string))
    (date_format identity : string) (aliases : gmap Z string)
    : res (list message) :=
  let query := (build_msg_query numbers).1 in
  let params := (build_msg_query numbers).2 in
  rows ← of_option DatabaseError (execute query params);
  _ ← log_params params;
  classify_rows date_format identity aliases rows [].

(** *** Renderer *)

Definition human_row (date_width from_width to_width : nat) (m : message)
    : string :=
  ljust (msg_date m) date_width +:+ " | "
  +:+ rjust (msg_from m) from_width +:+ " | "
  +:+ rjust (msg_to m) to_width +:+ " | " +:+ msg_text m.

(** [msgs_human] *)
Definition msgs_human (messages : list message) (header : bool)
    : res string :=
  max_from ← py_max ((λ x, String.length (msg_from x)) <$> messages);
  max_to ← py_max ((λ x, String.length (msg_to x)) <$> messages);
  max_date ← py_max ((λ x, String.length (msg_date x)) <$> messages);
  let from_width := Nat.max max_from (String.length "From") in
  let to_width := Nat.max max_to (String.length "To") in
  let date_width := Nat.max max_date (String.length "Date") in
  let hrow :=
    ljust "Date" date_width +:+ " | " +:+ ljust "From" from_width +:+ " | "
    +:+ ljust "To" to_width +:+ " | " +:+ "Text" in
  let msgs :=
    (if header then [hrow] else [])
    ++ (human_row date_width from_width to_width <$> messages)
    ++ [EmptyString] in
  Ok (utf8_encode (String.concat (String "010" EmptyString) msgs)).

(** [writer.writerow(fields)] for the writer of [msgs_csv],
    [csv.writer(queue, dialect=csv.excel, quoting=csv.QUOTE_ALL)]: the
    text the call appends to [queue]. *)
Variable csv_writerow : list string → string.

(** [msgs_csv]: the rows are written to [queue] one after the other, and
    [queue.getvalue()] is returned. *)
Definition msgs_csv (messages : list message) (header : bool) : string :=
  let queue := EmptyString in
  let queue :=
    if header then queue +:+ csv_writerow ["Date"; "From"; "To"; "Text"]%string
    else queue in
  foldl (λ queue m,
           queue +:+ csv_writerow [utf8_encode (msg_date m);
                                   utf8_encode (msg_from m);
                                   utf8_encode (msg_to m);
                                   utf8_encode (msg_text m)])
        queue messages.

(** [json.encoder.encode_basestring]: a string as a JSON string literal,
    the encoder of [json.dumps(.., ensure_ascii=False)]. *)
Variable json_string : string → string.

(** [json.dumps] on one message, inside the list: a dictionary with its
    keys sorted, at indentation level 1 of [indent=2].  The item separator
    of Python 2 is a comma and a blank, also before a line break. *)
Definition json_object (m : message) : string :=
  "{" +:+ String "010" "    "
  +:+ json_string "date" +:+ ": " +:+ json_string (msg_date m) +:+ ", "
  +:+ String "010" "    "
  +:+ json_string "from" +:+ ": " +:+ json_string (msg_from m) +:+ ", "
  +:+ String "010" "    "
  +:+ json_string "text" +:+ ": " +:+ json_string (msg_text m) +:+ ", "
  +:+ String "010" "    "
  +:+ json_string "to" +:+ ": " +:+ json_string (msg_to m)
  +:+ String "010" "  " +:+ "}".

(** [json.dumps(messages, sort_keys=True, indent=2, ensure_ascii=False)] *)
Definition json_dumps (messages : list message) : string :=
  match messages with
  | [] => "[]"
  | _ :: _ =>
      "[" +:+ String "010" "  "
      +:+ String.concat (", " +:+ String "010" "  ") (json_object <$> messages)
      +:+ String "010" "]"
  end.

(** [msgs_json]; [header] is not used. *)
Definition msgs_json (messages : list message) (header : bool) : string :=
  utf8_encode (json_dumps messages).

(** ** Properties *)

(** *** Results *)

Lemma res_bind_Ok {A B} (f : A → res B) (a : A) : Ok a ≫= f = f a.
Proof. done. Qed.

(** *** Digits and ASCII *)

Lemma is_digit_ascii c : is_digit c = true → is_ascii c = true.
Proof.
  unfold is_digit, is_ascii, Ascii.leb, Ascii.compare. intros H.
  apply andb_prop in H as [_ H].
  apply N.ltb_lt.
  change (N_of_ascii "9") with 57%N in H.
  destruct (N.compare_spec (N_of_ascii c) 57); try discriminate; lia.
Qed.

Lemma strip_is_digits phone : string_forallb is_digit (strip phone) = true.
Proof.
  induction phone as [|c rest IH]; simpl; [done|].
  destruct (is_digit c) eqn:Hc; simpl; [|done]. by rewrite Hc.
Qed.

Lemma strip_digits d : string_forallb is_digit d = true → strip d = d.
Proof.
  induction d as [|c rest IH]; simpl; [done|].
  intros [Hc Hrest]%andb_prop. rewrite Hc. by rewrite IH.
Qed.

Lemma digits_ascii s :
  string_forallb is_digit s = true → string_forallb is_ascii s = true.
Proof.
  induction s as [|c rest IH]; simpl; [done|].
  intros [Hc Hrest]%andb_prop. by rewrite is_digit_ascii, IH.
Qed.

Lemma unicode_decode_ascii u :
  string_forallb is_ascii u = true → unicode_decode u = Ok u.
Proof. unfold unicode_decode. by intros ->. Qed.

Lemma string_length_11 (d : string) : len d = 11 →
  ∃ c0 c1 c2 c3 c4 c5 c6 c7 c8 c9 c10,
    d = String c0 (String c1 (String c2 (String c3 (String c4 (String c5
        (String c6 (String c7 (String c8 (String c9
        (String c10 EmptyString)))))))))).
Proof.
  unfold len. intros H.
  do 11 (destruct d as [|? d]; [simpl in H; lia|]).
  destruct d; [|simpl in H; lia].
  by repeat eexists.
Qed.

(** *** Lists *)

Lemma filter_empty_iff {A} (P : A → Prop) `{∀ x, Decision (P x)}
    (l : list A) :
  filter P l = [] ↔ ∀ x, x ∈ l → ¬ P x.
Proof.
  induction l as [|y l IH].
  - split; [|done]. intros _ x Hx. by apply elem_of_nil in Hx.
  - rewrite filter_cons. destruct (decide (P y)) as [Hy|Hy].
    + split; [done|]. intros Hall. destruct (Hall y); [left|done].
    + rewrite IH. split.
      * intros Hall x [->|Hx]%elem_of_cons; [done|by apply Hall].
      * intros Hall x Hx. apply Hall. by right.
Qed.

(** *** PhoneNormalizer *)

Lemma unicode_decode_inv u v : unicode_decode u = Ok v → v = u.
Proof.
  unfold unicode_decode.
  by destruct (string_forallb is_ascii u); intros [=].
Qed.

(** C5 (amended): on an input with more than eleven digits, or with eleven
    digits of which the first is not 1, [format_phone] leaves the input as
    it is, punctuation included: it returns the input string itself when
    the string is ASCII, and raises in the final decode otherwise.  The
    result is the stripped digits only when the input held nothing but
    digits in the first place. *)
Theorem format_phone_leaves_as_is (phone : string) :
  11 < len (strip phone)
  ∨ (len (strip phone) = 11 ∧ first_char (strip phone) ≠ Some "1"%char) →
  format_phone phone =
    (if string_forallb is_ascii phone then Ok phone else Raise UnicodeError)
  ∧ (format_phone phone = Ok (strip phone) ↔ strip phone = phone).
Proof.
  intros Hcase.
  assert (Hfmt : format_phone phone = unicode_decode phone).
  { unfold format_phone.
    destruct (Z.ltb_spec (len (strip phone)) 10); [lia|].
    destruct (Z.eqb_spec (len (strip phone)) 10); [lia|].
    destruct (Z.eqb_spec (len (strip phone)) 11); [|done].
    rewrite bool_decide_eq_false_2; [done|].
    by destruct Hcase as [?|[_ ?]]; [lia|]. }
  split; [done|]. rewrite Hfmt. split.
  - by intros ->%unicode_decode_inv.
  - intros Heq. rewrite Heq. apply unicode_decode_ascii.
    rewrite <- Heq. apply digits_ascii, strip_is_digits.
Qed.

(** From [string_forallb is_digit] on an explicit string to the ASCII-ness
    of its characters, and back to [string_forallb is_ascii]. *)
Ltac split_digits H :=
  cbn [string_forallb] in H;
  repeat (apply andb_prop in H as [?%is_digit_ascii H]).

Ltac ascii_chars :=
  cbn [string_forallb];
  repeat (apply andb_true_intro; split); done.

(** C6: on eleven digits of which the first is 1, [format_phone] gives
    what it gives on the ten digits after the 1: the country code is
    dropped and the ten digits are written as (AAA) BBB-CCCC. *)
Theorem format_phone_country_code (d : string) :
  string_forallb is_digit d = true →
  len d = 11 →
  first_char d = Some "1"%char →
  format_phone d = format_phone (slice_from d 1)
  ∧ format_phone d =
      Ok ("(" +:+ slice d 1 4 +:+ ") " +:+ slice d 4 7 +:+ "-" +:+ slice d 7 11).
Proof.
  intros Hd Hlen Hfirst.
  destruct (string_length_11 d Hlen)
    as (c0&c1&c2&c3&c4&c5&c6&c7&c8&c9&c10&->).
  assert (Hfmt : format_phone
            (String c0 (String c1 (String c2 (String c3 (String c4 (String c5
            (String c6 (String c7 (String c8 (String c9
            (String c10 EmptyString)))))))))))
          = Ok (String "(" (String c1 (String c2 (String c3 (String ")"
               (String " " (String c4 (String c5 (String c6 (String "-"
               (String c7 (String c8 (String c9
               (String c10 EmptyString))))))))))))))).
  { unfold format_phone. rewrite strip_digits, Hfirst by done.
    apply unicode_decode_ascii. split_digits Hd. ascii_chars. }
  split; [|exact Hfmt].
  rewrite Hfmt. set (tl := slice_from _ 1). vm_compute in tl.
  assert (Htl : string_forallb is_digit tl = true).
  { unfold tl. cbn [string_forallb] in *. by apply andb_prop in Hd as [_ ->]. }
  unfold format_phone. rewrite strip_digits by done.
  symmetry. apply unicode_decode_ascii. split_digits Htl. ascii_chars.
Qed.
(** *** The [LIKE] of the resolver *)

Lemma is_digit_range c :
  is_digit c = true ↔ (48 ≤ N_of_ascii c ≤ 57)%N.
Proof.
  unfold is_digit, Ascii.leb, Ascii.compare.
  change (N_of_ascii "0") with 48%N. change (N_of_ascii "9") with 57%N.
  rewrite andb_true_iff.
  destruct (N.compare_spec 48 (N_of_ascii c)),
           (N.compare_spec (N_of_ascii c) 57); split; intros; try lia;
    intuition discriminate.
Qed.

Lemma fold_case_digit p : is_digit p = true → fold_case p = p.
Proof.
  intros Hp%is_digit_range. unfold fold_case.
  destruct (N.leb_spec 97 (N_of_ascii p)); [lia|done].
Qed.

Lemma fold_case_eq_digit p c :
  is_digit p = true → fold_case c = p → c = p.
Proof.
  intros Hp%is_digit_range. unfold fold_case.
  destruct (N.leb_spec 97 (N_of_ascii c)), (N.leb_spec (N_of_ascii c) 122);
    simpl; try done.
  intros <-. rewrite N_ascii_embedding in Hp; lia.
Qed.

Lemma like_percent pattern s :
  like (String "%" pattern) s =
  like pattern s ||
  match s with
  | EmptyString => false
  | String _ s' => like (String "%" pattern) s'
  end.
Proof. by destruct s. Qed.

Lemma like_char p pattern s :
  Ascii.eqb p "%" = false →
  like (String p pattern) s =
  match s with
  | EmptyString => false
  | String c s' =>
      (Ascii.eqb p "_" || Ascii.eqb (fold_case p) (fold_case c))
      && like pattern s'
  end.
Proof. intros Hp. simpl. by rewrite Hp. Qed.

(** A pattern of digits matches itself only. *)
Lemma like_digits d s :
  string_forallb is_digit d = true → like d s = true ↔ s = d.
Proof.
  revert s. induction d as [|p d IH]; intros s Hd.
  - destruct s; simpl; split; done.
  - cbn [string_forallb] in Hd. apply andb_prop in Hd as [Hp Hd].
    rewrite like_char by (by destruct (Ascii.eqb_spec p "%") as [->|]).
    destruct s as [|c s]; [done|].
    replace (Ascii.eqb p "_") with false
      by (by destruct (Ascii.eqb_spec p "_") as [->|]).
    rewrite fold_case_digit by done. simpl.
    rewrite andb_true_iff, IH by done. split.
    + intros [Hc ->]. apply Ascii.eqb_eq in Hc. symmetry in Hc.
      by apply fold_case_eq_digit in Hc as ->.
    + intros [= -> ->]. split; [|done].
      rewrite fold_case_digit by done. apply Ascii.eqb_refl.
Qed.

(** [subject LIKE '%' || d], for digits [d], holds when [subject] ends
    with [d]. *)
Lemma like_suffix d s :
  string_forallb is_digit d = true →
  like (String "%" d) s = true ↔ ∃ pre, s = pre +:+ d.
Proof.
  intros Hd. induction s as [|c s IH].
  - rewrite like_percent, orb_false_r, like_digits by done. split.
    + intros <-. by exists EmptyString.
    + intros [[|] Heq]; simpl in Heq; [done|discriminate].
  - rewrite like_percent, orb_true_iff, like_digits, IH by done. split.
    + intros [->|[pre ->]]; [by exists EmptyString|by exists (String c pre)].
    + intros [[|c' pre] Heq]; simpl in Heq; [by left|right].
      injection Heq as -> ->. by exists pre.
Qed.
(** *** Slices *)

Lemma substring_all s : substring 0 (String.length s) s = s.
Proof. induction s as [|c s IH]; simpl; [done|by rewrite IH]. Qed.

Lemma substring_tail (n : nat) s :
  (n ≤ String.length s)%nat →
  ∃ pre, s = pre +:+ substring n (String.length s - n) s
         ∧ String.length pre = n.
Proof.
  revert n. induction s as [|c s IH]; intros [|n] Hn; simpl in *; try lia.
  - by exists EmptyString.
  - exists EmptyString. by rewrite substring_all.
  - destruct (IH n) as (pre & Heq & Hlen); [lia|].
    exists (String c pre). split; [exact (f_equal (String c) Heq)|].
    simpl. by rewrite Hlen.
Qed.

Lemma string_length_app s1 s2 :
  String.length (s1 +:+ s2) = (String.length s1 + String.length s2)%nat.
Proof. induction s1 as [|c s1 IH]; simpl; [done|by rewrite IH]. Qed.

Lemma string_app_assoc s1 s2 s3 : (s1 +:+ s2) +:+ s3 = s1 +:+ s2 +:+ s3.
Proof.
  induction s1 as [|c s1 IH]; [done|].
  exact (f_equal (String c) IH).
Qed.

Lemma string_app_nil_r s : s +:+ EmptyString = s.
Proof. induction s as [|c s IH]; [done|]. exact (f_equal (String c) IH). Qed.

Lemma string_forallb_app p s1 s2 :
  string_forallb p (s1 +:+ s2) = string_forallb p s1 && string_forallb p s2.
Proof.
  induction s1 as [|c s1 IH]; simpl; [done|].
  by rewrite IH, andb_assoc.
Qed.

(** [s[-k:]] is the end of [s], of [k] characters or of all of [s] when
    [s] is shorter. *)
Lemma slice_from_end (s : string) (k : Z) :
  0 < k →
  (∃ pre, s = pre +:+ slice_from s (- k))
  ∧ len (slice_from s (- k)) = Z.min k (len s).
Proof.
  intros Hk. unfold slice_from, slice, slice_bound, len.
  set (n := String.length s).
  destruct (Z.ltb_spec (- k) 0); [|lia].
  destruct (Z.ltb_spec (Z.of_nat n) 0); [lia|].
  rewrite Z.min_id.
  destruct (substring_tail (Z.to_nat (Z.max 0 (Z.of_nat n + - k))) s)
    as (pre & Heq & Hlen); [unfold n; lia|].
  replace (Z.to_nat (Z.of_nat n - Z.max 0 (Z.of_nat n + - k)))
    with (n - Z.to_nat (Z.max 0 (Z.of_nat n + - k)))%nat by lia.
  split; [by exists pre|].
  apply (f_equal String.length) in Heq.
  rewrite string_length_app, Hlen in Heq. fold n in Heq. lia.
Qed.

Lemma slice_from_end_digits (s : string) (k : Z) :
  0 < k →
  string_forallb is_digit s = true →
  string_forallb is_digit (slice_from s (- k)) = true.
Proof.
  intros Hk Hs. destruct (slice_from_end s k Hk) as [[pre Heq] _].
  rewrite Heq, string_forallb_app in Hs. by apply andb_prop in Hs as [_ ?].
Qed.

Lemma has_suffix_spec suffix s :
  has_suffix suffix s = true ↔ ∃ pre, s = pre +:+ suffix.
Proof.
  induction s as [|c s IH]; cbn [has_suffix].
  - rewrite orb_false_r, String.eqb_eq. split.
    + intros <-. by exists EmptyString.
    + intros [[|] Heq]; simpl in Heq; [done|discriminate].
  - rewrite orb_true_iff, String.eqb_eq, IH. split.
    + intros [<-|[pre ->]]; [by exists EmptyString|by exists (String c pre)].
    + intros [[|c' pre] Heq]; simpl in Heq; [by left|right].
      injection Heq as -> ->. by exists pre.
Qed.

(** On a suffix of digits the [LIKE] of the resolver is [has_suffix]. *)
Lemma like_has_suffix d s :
  string_forallb is_digit d = true →
  like (String "%" d) s = has_suffix d s.
Proof.
  intros Hd. apply eq_true_iff_eq.
  by rewrite like_suffix, has_suffix_spec.
Qed.

(** *** GroupResolver *)

Lemma query_group_ids_filter (phone : string) :
  let suffix := slice_from (strip phone) (-10) in
  let matching :=
    filter (λ m, has_suffix suffix (strip (member_address m)) = true)
           (group_member_table COPY_DB) in
  query_group_ids phone =
    match matching with
    | [] => None
    | _ :: _ => Some (member_group_id <$> matching)
    end.
Proof.
  intros suffix matching. unfold query_group_ids.
  replace (filter _ (group_member_table COPY_DB)) with matching; [done|].
  unfold matching. apply list_filter_iff. intros m.
  change ("%" +:+ slice_from (strip phone) (-10)) with (String "%" suffix).
  rewrite like_has_suffix; [done|].
  apply (slice_from_end_digits _ 10); [lia|apply strip_is_digits].
Qed.

(** C2 (amended): [query_group_ids] cuts the phone number down to its last
    ten digits (all of them when there are fewer) and returns the group id
    of every [group_member] row whose stripped address ends with these
    digits: one entry per matching row, in table order, so that a group id
    comes back once for each of its matching addresses.  A group id is in
    the list exactly when one of its stored addresses matches; two phone
    numbers with the same last ten digits get the same answer; and with no
    matching row the answer is [None], never an exception. *)
Theorem query_group_ids_suffix_match (phone : string) :
  let suffix := slice_from (strip phone) (-10) in
  let matching :=
    filter (λ m, has_suffix suffix (strip (member_address m)) = true)
           (group_member_table COPY_DB) in
  ((∃ pre, strip phone = pre +:+ suffix)
   ∧ len suffix = Z.min 10 (len (strip phone)))
  ∧ default [] (query_group_ids phone) = member_group_id <$> matching
  ∧ (∀ gid, gid ∈ default [] (query_group_ids phone) ↔
       ∃ m, m ∈ group_member_table COPY_DB ∧ member_group_id m = gid
            ∧ ∃ pre, strip (member_address m) = pre +:+ suffix)
  ∧ (∀ phone', slice_from (strip phone') (-10) = suffix →
       query_group_ids phone' = query_group_ids phone)
  ∧ (query_group_ids phone = None ↔
       ∀ m, m ∈ group_member_table COPY_DB →
            ¬ ∃ pre, strip (member_address m) = pre +:+ suffix).
Proof.
  intros suffix matching.
  assert (Hres : default [] (query_group_ids phone)
                 = member_group_id <$> matching).
  { rewrite query_group_ids_filter. fold suffix matching.
    by destruct matching. }
  split; [apply (slice_from_end (strip phone) 10); lia|].
  split; [done|]. split; [|split].
  - intros gid. rewrite Hres, list_elem_of_fmap. unfold matching.
    split.
    + intros (m & -> & [Hm Hin]%list_elem_of_filter).
      apply has_suffix_spec in Hm. by exists m.
    + intros (m & Hin & <- & Hm). exists m. split; [done|].
      apply list_elem_of_filter. by rewrite has_suffix_spec.
  - intros phone' Hsuffix. unfold query_group_ids. by rewrite Hsuffix.
  - rewrite query_group_ids_filter. fold suffix matching.
    assert (matching = [] ↔ ∀ m, m ∈ group_member_table COPY_DB →
              ¬ ∃ pre, strip (member_address m) = pre +:+ suffix) as <-.
    { unfold matching. rewrite filter_empty_iff.
      by setoid_rewrite has_suffix_spec. }
    by destruct matching.
Qed.


(** *** QueryPlanner *)

Global Instance by_rowid_trans : Transitive by_rowid.
Proof. unfold by_rowid. intros r1 r2 r3. lia. Qed.

Global Instance by_rowid_total : Total by_rowid.
Proof. unfold by_rowid. intros r1 r2. lia. Qed.

Lemma StronglySorted_filter {A} (R : relation A) (P : A → Prop)
    `{∀ x, Decision (P x)} (l : list A) :
  StronglySorted R l → StronglySorted R (filter P l).
Proof.
  induction 1 as [|x l Hl IH Hx]; [constructor|].
  rewrite filter_cons. case_decide; [|done].
  constructor; [done|].
  apply Forall_forall. intros y [_ Hy]%list_elem_of_filter.
  by eapply Forall_forall in Hx.
Qed.

(** Numbers that resolve to no group add nothing to the planned filter. *)
Lemma foldl_unresolved (l : list string) (group_ids : list Z) :
  (∀ n, n ∈ l → query_group_ids n = None) →
  foldl (λ group_ids n,
           match query_group_ids n with
           | Some gids => group_ids ++ gids
           | None => group_ids
           end) group_ids l = group_ids.
Proof.
  revert group_ids. induction l as [|n l IH]; intros group_ids Hl; [done|].
  simpl. rewrite (Hl n) by left. apply IH. intros n' Hn'. apply Hl. by right.
Qed.

Lemma collect_group_ids_unresolved (numbers : option (list string)) :
  (∀ l n, numbers = Some l → n ∈ l → query_group_ids n = None) →
  collect_group_ids numbers = [].
Proof.
  destruct numbers as [l|]; [|done]. intros Hnone.
  apply foldl_unresolved. eauto.
Qed.

Lemma select_in_not_select_all qmarks :
  String.eqb (select_in qmarks) select_all = false.
Proof. reflexivity. Qed.

Lemma execute_select_all :
  execute select_all [] = Some (merge_sort by_rowid (message_table COPY_DB)).
Proof. unfold execute. by rewrite String.eqb_refl. Qed.

Lemma execute_select_in (params : list Z) :
  execute (select_in (question_marks_placeholder (length params))) params =
  Some (merge_sort by_rowid
          (filter (λ r, group_id r ∈ params) (message_table COPY_DB))).
Proof.
  unfold execute. by rewrite select_in_not_select_all, String.eqb_refl.
Qed.

Lemma execute_build_msg_query (numbers : option (list string)) :
  execute (build_msg_query numbers).1 (build_msg_query numbers).2 =
  Some (merge_sort by_rowid (selection numbers)).
Proof.
  unfold build_msg_query, selection.
  destruct (collect_group_ids numbers) as [|gid group_ids] eqn:Hids.
  - apply execute_select_all.
  - exact (execute_select_in (gid :: group_ids)).
Qed.

(** Either statement ends with the clause that orders the rows. *)
Lemma build_msg_query_order_by (numbers : option (list string)) :
  ∃ pre, (build_msg_query numbers).1 = pre +:+ "order by rowid".
Proof.
  unfold build_msg_query.
  destruct (collect_group_ids numbers) as [|gid group_ids].
  - by exists ("select rowid, date, address, text, flags, group_id "
               +:+ "from message ").
  - set (qmarks := question_marks_placeholder _).
    exists ("select rowid, date, address, text, flags, group_id "
            +:+ "from message "
            +:+ "where group_id in (" +:+ qmarks +:+ ") ").
    by rewrite !string_app_assoc.
Qed.

(** C1: when no requested number resolves to a group (no list, an empty
    list, or only numbers without a group), [build_msg_query] plans the
    select without a [where] clause and without parameters, and running it
    gives every row of the message table, each once, ordered by rowid: the
    result is empty only when the table is. *)
Theorem build_msg_query_unfiltered (numbers : option (list string)) :
  (∀ l n, numbers = Some l → n ∈ l → query_group_ids n = None) →
  build_msg_query numbers = (select_all, [])
  ∧ ∃ rows,
      execute (build_msg_query numbers).1 (build_msg_query numbers).2
        = Some rows
      ∧ rows ≡ₚ message_table COPY_DB
      ∧ (∀ r, r ∈ rows ↔ r ∈ message_table COPY_DB)
      ∧ (message_table COPY_DB ≠ [] → rows ≠ []).
Proof.
  intros Hnone%collect_group_ids_unresolved.
  assert (Hq : build_msg_query numbers = (select_all, [])).
  { unfold build_msg_query. by rewrite Hnone. }
  split; [done|]. rewrite Hq. simpl.
  exists (merge_sort by_rowid (message_table COPY_DB)).
  pose proof (merge_sort_Permutation by_rowid (message_table COPY_DB)) as Hp.
  split; [apply execute_select_all|]. split; [done|]. split.
  - intros r. by rewrite Hp.
  - intros Hne Hnil. rewrite Hnil in Hp. by apply Permutation_nil_l in Hp.
Qed.

(** *** AliasResolver *)

(** What the inner loop of [alias_map] leaves in the dictionary: the
    decoded name under every group id of the list, the old entry under any
    other key. *)
Lemma alias_register_spec (name : string) (group_ids : list Z)
    (result result' : gmap Z string) :
  alias_register name group_ids result = Ok result' →
  ∀ gid, result' !! gid =
         if decide (gid ∈ group_ids) then utf8_decode name
         else result !! gid.
Proof.
  revert result. induction group_ids as [|g group_ids IH]; intros result.
  - intros [= <-] gid. rewrite decide_False; [done|]. apply not_elem_of_nil.
  - simpl. destruct (utf8_decode name) as [alias|] eqn:Hname; simpl; [|done].
    intros Hrest gid. rewrite (IH _ Hrest gid).
    destruct (decide (gid ∈ group_ids)) as [Hin|Hnotin].
    + rewrite decide_True; [done|by right].
    + destruct (decide (gid = g)) as [->|Hne].
      * rewrite decide_True by left. by rewrite lookup_insert_eq.
      * rewrite decide_False by (by intros [?|?]%elem_of_cons).
        by rewrite lookup_insert_ne.
Qed.

Lemma alias_register_total (name : string) (group_ids : list Z)
    (result : gmap Z string) :
  group_ids = [] ∨ is_Some (utf8_decode name) →
  is_Ok (alias_register name group_ids result).
Proof.
  revert result. induction group_ids as [|g group_ids IH]; intros result Hname.
  - by exists result.
  - destruct Hname as [?|[alias Halias]]; [done|].
    simpl. rewrite Halias. simpl. apply IH. right. by exists alias.
Qed.

(** One step of the outer loop, on a pair the pattern accepts. *)
Lemma alias_loop_cons (a number name : string) (rest : list string)
    (result : gmap Z string) :
  match_alias a = Some (number, name) →
  alias_loop (a :: rest) result =
  match query_group_ids number with
  | Some group_ids =>
      alias_register name group_ids result ≫= alias_loop rest
  | None => alias_loop rest result
  end.
Proof. intros Ha. simpl. by rewrite Ha. Qed.

Lemma alias_loop_app (l1 l2 : list string) (result : gmap Z string) :
  alias_loop (l1 ++ l2) result = alias_loop l1 result ≫= alias_loop l2.
Proof.
  revert result. induction l1 as [|a l1 IH]; intros result; [done|].
  simpl. destruct (match_alias a) as [[number name]|]; simpl; [|done].
  destruct (query_group_ids number) as [group_ids|]; [|apply IH].
  destruct (alias_register name group_ids result); simpl; [apply IH|done].
Qed.

(** The pairs of a validated list all match the pattern of [alias_map]. *)
Lemma validate_alias_list_match (aliases : list string) (a : string) :
  validate_alias_list aliases = Ok () →
  a ∈ aliases →
  ∃ number name, match_alias a = Some (number, name)
                 ∧ valid_phone number = true.
Proof.
  induction aliases as [|a' aliases IH]; simpl.
  - intros _ Hin. by apply elem_of_nil in Hin.
  - destruct (match_alias a') as [[number name]|] eqn:Hm; [|done].
    destruct (valid_phone number) eqn:Hvalid; [|done].
    intros Hrest [->|Hin]%elem_of_cons; [by exists number, name|by apply IH].
Qed.

Lemma alias_loop_total (aliases : list string) (result : gmap Z string) :
  validate_alias_list aliases = Ok () →
  (∀ a number name, a ∈ aliases → match_alias a = Some (number, name) →
     is_Some (query_group_ids number) → is_Some (utf8_decode name)) →
  is_Ok (alias_loop aliases result).
Proof.
  revert result. induction aliases as [|a aliases IH]; intros result.
  - by exists result.
  - intros Hvalid Hnames.
    destruct (validate_alias_list_match _ a Hvalid) as (number & name & Ha & _);
      [by left|].
    assert (Hrest : validate_alias_list aliases = Ok ()).
    { simpl in Hvalid. rewrite Ha in Hvalid.
      by destruct (valid_phone number). }
    assert (Hnames' : ∀ a number name, a ∈ aliases →
              match_alias a = Some (number, name) →
              is_Some (query_group_ids number) → is_Some (utf8_decode name)).
    { intros a' number' name' Hin. apply Hnames. by right. }
    rewrite (alias_loop_cons _ _ _ _ _ Ha).
    destruct (query_group_ids number) as [group_ids|] eqn:Hq; [|by apply IH].
    destruct (alias_register_total name group_ids result) as [result' ->].
    { right. apply (Hnames a number name); [by left|done|by exists group_ids]. }
    simpl. by apply IH.
Qed.

(** Every entry of the dictionary was there at the start or comes from a
    pair whose number resolved to the entry's key. *)
Lemma alias_loop_keys (aliases : list string) (result result' : gmap Z string) :
  alias_loop aliases result = Ok result' →
  ∀ gid, is_Some (result' !! gid) →
    is_Some (result !! gid)
    ∨ ∃ a number name group_ids,
        a ∈ aliases ∧ match_alias a = Some (number, name)
        ∧ query_group_ids number = Some group_ids ∧ gid ∈ group_ids.
Proof.
  revert result. induction aliases as [|a aliases IH]; intros result.
  - intros [= <-] gid Hgid. by left.
  - simpl. destruct (match_alias a) as [[number name]|] eqn:Ha; simpl; [|done].
    destruct (query_group_ids number) as [group_ids|] eqn:Hq.
    + destruct (alias_register name group_ids result) as [result1|] eqn:Hreg;
        simpl; [|done].
      intros Hloop gid Hgid.
      destruct (IH _ Hloop gid Hgid) as [Hold|(a'&n'&m'&g'&Hin&?&?&?)].
      * rewrite (alias_register_spec _ _ _ _ Hreg gid) in Hold.
        destruct (decide (gid ∈ group_ids)) as [Hin|_]; [|by left].
        right. exists a, number, name, group_ids. by repeat split; [left|..].
      * right. exists a', n', m', g'. by repeat split; [right|..].
    + intros Hloop gid Hgid.
      destruct (IH _ Hloop gid Hgid) as [Hold|(a'&n'&m'&g'&Hin&?&?&?)];
        [by left|].
      right. exists a', n', m', g'. by repeat split; [right|..].
Qed.

(** A pair whose number resolves to no group leaves the loop as it would
    be without the pair. *)
Lemma alias_loop_unresolved (l1 l2 : list string) (a number name : string)
    (result : gmap Z string) :
  match_alias a = Some (number, name) →
  query_group_ids number = None →
  alias_loop (l1 ++ a :: l2) result = alias_loop (l1 ++ l2) result.
Proof.
  intros Ha Hq. rewrite !alias_loop_app.
  destruct (alias_loop l1 result) as [result1|]; [|done].
  rewrite !res_bind_Ok. by rewrite (alias_loop_cons _ _ _ _ _ Ha), Hq.
Qed.

(** Pairs that do not resolve to [gid] leave its entry alone. *)
Lemma alias_loop_other (aliases : list string) (result result' : gmap Z string)
    (gid : Z) :
  (∀ a number name group_ids, a ∈ aliases →
     match_alias a = Some (number, name) →
     query_group_ids number = Some group_ids → gid ∉ group_ids) →
  alias_loop aliases result = Ok result' →
  result' !! gid = result !! gid.
Proof.
  revert result. induction aliases as [|a aliases IH]; intros result Hother.
  - by intros [= <-].
  - simpl. destruct (match_alias a) as [[number name]|] eqn:Ha; simpl; [|done].
    assert (Hother' : ∀ a number name group_ids, a ∈ aliases →
              match_alias a = Some (number, name) →
              query_group_ids number = Some group_ids → gid ∉ group_ids).
    { intros a' n' m' g' Hin. apply Hother. by right. }
    destruct (query_group_ids number) as [group_ids|] eqn:Hq; [|by apply IH].
    destruct (alias_register name group_ids result) as [result1|] eqn:Hreg;
      simpl; [|done].
    intros Hloop. rewrite (IH _ Hother' Hloop).
    rewrite (alias_register_spec _ _ _ _ Hreg gid).
    rewrite decide_False; [done|].
    apply (Hother a number name group_ids); [by left|done..].
Qed.

(** C7: on a list of pairs that passed [validate_aliases], [alias_map]
    answers whenever the names of the resolved pairs decode; every key of
    its dictionary is a group id that [query_group_ids] returned for the
    number of some pair of the list; and a pair whose number resolves to
    no group changes nothing: the answer is the one for the list without
    the pair, so it adds no key and raises nothing. *)
Theorem alias_map_keys_resolved (aliases : list string) :
  validate_aliases (Some aliases) = Ok () →
  ((∀ a number name, a ∈ aliases → match_alias a = Some (number, name) →
      is_Some (query_group_ids number) → is_Some (utf8_decode name)) →
   is_Ok (alias_map (Some aliases)))
  ∧ (∀ result gid,
       alias_map (Some aliases) = Ok result → gid ∈ dom result →
       ∃ a number name group_ids,
         a ∈ aliases ∧ match_alias a = Some (number, name)
         ∧ query_group_ids number = Some group_ids ∧ gid ∈ group_ids)
  ∧ (∀ l1 a l2 number name,
       aliases = l1 ++ a :: l2 →
       match_alias a = Some (number, name) →
       query_group_ids number = None →
       alias_map (Some aliases) = alias_map (Some (l1 ++ l2))).
Proof.
  intros Hvalid. simpl in Hvalid. split; [|split].
  - intros Hnames. by apply alias_loop_total.
  - intros result gid Hmap Hgid%elem_of_dom.
    destruct (alias_loop_keys _ _ _ Hmap gid Hgid) as [Hold|?]; [|done].
    rewrite lookup_empty in Hold. by destruct Hold.
  - intros l1 a l2 number name -> Ha Hq. simpl.
    by eapply alias_loop_unresolved.
Qed.

(** C10: when a pair of the list resolves to a set of group ids that holds
    [gid], and no pair after it does, the dictionary gives [gid] the name
    of this pair, whatever the pairs before it registered for [gid]: a
    later pair overwrites the entries of the earlier ones. *)
Theorem alias_map_last_wins (l1 l2 : list string) (a number name : string)
    (group_ids : list Z) (gid : Z) (result : gmap Z string) :
  match_alias a = Some (number, name) →
  query_group_ids number = Some group_ids →
  gid ∈ group_ids →
  (∀ a' number' name' group_ids', a' ∈ l2 →
     match_alias a' = Some (number', name') →
     query_group_ids number' = Some group_ids' → gid ∉ group_ids') →
  alias_map (Some (l1 ++ a :: l2)) = Ok result →
  result !! gid = utf8_decode name.
Proof.
  intros Ha Hq Hgid Hlater. unfold alias_map. rewrite alias_loop_app.
  destruct (alias_loop l1 ∅) as [result1|]; [|done].
  rewrite res_bind_Ok, (alias_loop_cons _ _ _ _ _ Ha), Hq.
  destruct (alias_register name group_ids result1) as [result2|] eqn:Hreg;
    simpl; [|done].
  intros Hloop. rewrite (alias_loop_other _ _ _ gid Hlater Hloop).
  rewrite (alias_register_spec _ _ _ _ Hreg gid). by rewrite decide_True.
Qed.

(** *** MessageClassifier *)

Lemma skip_row_false (row : message_row) :
  skip_row row = false →
  (flags row = 2 ∨ flags row = 3)
  ∧ (∃ a, address row = Some a ∧ a ≠ EmptyString)
  ∧ (∃ t, text row = Some t ∧ t ≠ EmptyString).
Proof.
  unfold skip_row. intros Hskip.
  assert (Hflags : flags row = 2 ∨ flags row = 3).
  { destruct (Z.eqb_spec (flags row) 2); [by left|].
    destruct (Z.eqb_spec (flags row) 3); [by right|done]. }
  replace ((flags row =? 2) || (flags row =? 3)) with true in Hskip
    by (by destruct Hflags as [-> | ->]).
  simpl in Hskip.
  case_bool_decide as Ha; [done|]. case_bool_decide as Ht; [done|].
  split; [done|]. split.
  - destruct (address row) as [a|]; [|by destruct Ha; left].
    exists a. split; [done|]. intros ->. apply Ha. by right.
  - destruct (text row) as [t|]; [|by destruct Ht; left].
    exists t. split; [done|]. intros ->. apply Ht. by right.
Qed.

Lemma skip_row_other_flag (row : message_row) :
  flags row ≠ 2 → flags row ≠ 3 → skip_row row = true.
Proof.
  intros H2 H3. unfold skip_row.
  by destruct (Z.eqb_spec (flags row) 2), (Z.eqb_spec (flags row) 3).
Qed.

(** [convert_address] leaves its result unbound on any other flag, and
    only there. *)
Lemma convert_address_unbound (row : message_row) (me : string)
    (aliases : gmap Z string) :
  convert_address row me aliases = Raise UnboundLocalError →
  flags row ≠ 2 ∧ flags row ≠ 3.
Proof.
  unfold convert_address.
  destruct (utf8_decode me) as [me'|]; simpl; [|done].
  destruct (address row) as [a|]; simpl; [|done].
  unfold format_phone, unicode_decode.
  destruct (string_forallb is_ascii _); simpl; [|done].
  by destruct (Z.eqb_spec (flags row) 2), (Z.eqb_spec (flags row) 3).
Qed.

Lemma classify_not_unbound (date_format identity : string)
    (aliases : gmap Z string) (row : message_row) :
  classify date_format identity aliases row ≠ Raise UnboundLocalError.
Proof.
  unfold classify. destruct (skip_row row) eqn:Hskip; [done|].
  apply skip_row_false in Hskip as [Hflags _].
  unfold convert_date.
  destruct (strftime _ _) as [ds|]; simpl; [|done].
  destruct (utf8_decode ds) as [fmt_date|]; simpl; [|done].
  destruct (convert_address row identity aliases) as [addrs|e] eqn:Haddr;
    simpl; [done|].
  intros [= ->]. apply convert_address_unbound in Haddr. lia.
Qed.

(** The loop only adds to [messages]: it answers with [messages] followed
    by the messages of the rows it keeps, in the order of the rows. *)
Lemma classify_rows_spec (date_format identity : string)
    (aliases : gmap Z string) (rows : list message_row)
    (messages result : list message) :
  classify_rows date_format identity aliases rows messages = Ok result →
  ∃ new, result = messages ++ new
    ∧ Forall2 (λ r m, classify date_format identity aliases r = Ok (Some m))
              (filter (λ r, skip_row r = false) rows) new.
Proof.
  revert messages. induction rows as [|row rows IH]; intros messages; simpl.
  - intros [= <-]. exists []. by rewrite app_nil_r.
  - destruct (classify date_format identity aliases row) as [m|e] eqn:Hrow;
      simpl; [|done].
    intros (new & -> & Hnew)%IH. rewrite filter_cons.
    unfold classify in Hrow. destruct (skip_row row) eqn:Hskip.
    + injection Hrow as <-. rewrite decide_False by done. by exists new.
    + rewrite decide_True by done.
      destruct m as [msg|].
      * exists (msg :: new). rewrite <- app_assoc. split; [done|].
        constructor; [|done]. unfold classify. by rewrite Hskip.
      * exfalso. destruct (convert_date _ _); simpl in Hrow; [|done].
        by destruct (convert_address _ _ _).
Qed.

Lemma classify_rows_total (date_format identity : string)
    (aliases : gmap Z string) (rows : list message_row)
    (messages : list message) :
  (∀ r, r ∈ rows → skip_row r = false →
        is_Ok (classify date_format identity aliases r)) →
  is_Ok (classify_rows date_format identity aliases rows messages).
Proof.
  revert messages. induction rows as [|row rows IH]; intros messages Hrows.
  - by exists messages.
  - simpl. destruct (skip_row row) eqn:Hskip.
    + unfold classify at 1. rewrite Hskip. simpl.
      apply IH. intros r Hr. apply Hrows. by right.
    + destruct (Hrows row) as [m ->]; [by left|done|]. simpl.
      apply IH. intros r Hr. apply Hrows. by right.
Qed.

Lemma classify_rows_not_unbound (date_format identity : string)
    (aliases : gmap Z string) (rows : list message_row)
    (messages : list message) :
  classify_rows date_format identity aliases rows messages
  ≠ Raise UnboundLocalError.
Proof.
  revert messages. induction rows as [|row rows IH]; intros messages; [done|].
  simpl.
  destruct (classify date_format identity aliases row) as [m|e] eqn:Hrow;
    simpl; [apply IH|].
  intros [= ->]. by apply classify_not_unbound in Hrow.
Qed.


(** C4: the skip check removes every row whose flag is neither 2 nor 3,
    so the loop of [main] hands [convert_address] rows with flag 2 or 3
    only: although [convert_address] by itself ends in an unbound result
    on any other flag, neither the body of the loop nor the loop can. *)
Theorem direction_branch_unreachable (date_format identity : string)
    (aliases : gmap Z string) :
  (∀ row, flags row ≠ 2 → flags row ≠ 3 →
          skip_row row = true
          ∧ classify date_format identity aliases row = Ok None)
  ∧ (∀ row, skip_row row = false → flags row = 2 ∨ flags row = 3)
  ∧ (∀ row,
       convert_address row identity aliases = Raise UnboundLocalError →
       flags row ≠ 2 ∧ flags row ≠ 3)
  ∧ (∀ row, classify date_format identity aliases row
            ≠ Raise UnboundLocalError)
  ∧ (∀ rows messages,
       classify_rows date_format identity aliases rows messages
       ≠ Raise UnboundLocalError).
Proof.
  split; [|split; [|split; [|split]]].
  - intros row H2 H3. pose proof (skip_row_other_flag row H2 H3) as Hskip.
    split; [done|]. unfold classify. by rewrite Hskip.
  - intros row Hskip. by apply skip_row_false in Hskip as [? _].
  - intros row. apply convert_address_unbound.
  - apply classify_not_unbound.
  - apply classify_rows_not_unbound.
Qed.

(** *** Renderer *)

Lemma py_max_total (l : list nat) : l ≠ [] → is_Ok (py_max l).
Proof. destruct l as [|x l]; [done|]. intros _. by eexists. Qed.

(** On a non-empty list the human renderer writes the optional header, one
    line per message in the order of the list, and an empty last line. *)
Lemma msgs_human_lines (messages : list message) (header : bool) :
  messages ≠ [] →
  ∃ date_width from_width to_width hrow,
    msgs_human messages header =
    Ok (utf8_encode
          (String.concat (String "010" EmptyString)
             ((if header then [hrow] else [])
              ++ (human_row date_width from_width to_width <$> messages)
              ++ [EmptyString]))).
Proof.
  intros Hne. unfold msgs_human.
  destruct messages as [|m messages]; [done|]. simpl.
  by repeat eexists.
Qed.

Lemma foldl_max_le (l : list nat) (x : nat) :
  (x ≤ foldl Nat.max x l)%nat
  ∧ (∀ y, y ∈ l → y ≤ foldl Nat.max x l)%nat
  ∧ (foldl Nat.max x l = x ∨ foldl Nat.max x l ∈ l).
Proof.
  revert x. induction l as [|z l IH]; intros x.
  - split; [done|]. split; [|by left]. intros y Hy.
    by apply elem_of_nil in Hy.
  - cbn [foldl]. destruct (IH (Nat.max x z)) as (Hx & Hl & Hattained).
    split; [lia|]. split.
    + intros y [->|Hy]%elem_of_cons; [lia|by apply Hl].
    + destruct Hattained as [Heq|Hin]; [|by right; right].
      rewrite Heq. destruct (Nat.max_spec x z) as [[_ ->]|[_ ->]];
        [right; left|by left].
Qed.

Lemma py_max_spec (l : list nat) (m : nat) :
  py_max l = Ok m → m ∈ l ∧ ∀ y, y ∈ l → (y ≤ m)%nat.
Proof.
  destruct l as [|x l]; [done|]. intros [= <-].
  destruct (foldl_max_le l x) as (Hx & Hl & Hattained). split.
  - destruct Hattained as [-> |Hin]; [left|by right].
  - intros y [->|Hy]%elem_of_cons; [done|by apply Hl].
Qed.

Lemma spaces_length (n : nat) : String.length (spaces n) = n.
Proof.
  unfold spaces. induction n as [|n IH]; [done|].
  cbn [replicate string_of_list_ascii String.length]. by rewrite IH.
Qed.

Lemma ljust_length (s : string) (width : nat) :
  String.length (ljust s width) = Nat.max width (String.length s).
Proof. unfold ljust. rewrite string_length_app, spaces_length. lia. Qed.

Lemma rjust_length (s : string) (width : nat) :
  String.length (rjust s width) = Nat.max width (String.length s).
Proof. unfold rjust. rewrite string_length_app, spaces_length. lia. Qed.

(** The text of [msgs_human] on a non-empty list, written out: the width
    of a column is that of its widest value or, if wider, of its title;
    the header pads the titles on the right; a line pads the date on the
    right and the sender and the recipient on the left; an empty string
    closes the list that is joined by line breaks. *)
Lemma msgs_human_text (messages : list message) (header : bool) :
  messages ≠ [] →
  ∃ date_width from_width to_width,
    msgs_human messages header =
    Ok (utf8_encode
          (String.concat (String "010" EmptyString)
             ((if header
               then [("Date" +:+ spaces (date_width - 4)) +:+ " | "
                     +:+ ("From" +:+ spaces (from_width - 4)) +:+ " | "
                     +:+ ("To" +:+ spaces (to_width - 2)) +:+ " | "
                     +:+ "Text"]
               else [])
              ++ ((λ m,
                     (msg_date m
                      +:+ spaces (date_width - String.length (msg_date m)))
                     +:+ " | "
                     +:+ (spaces (from_width - String.length (msg_from m))
                          +:+ msg_from m)
                     +:+ " | "
                     +:+ (spaces (to_width - String.length (msg_to m))
                          +:+ msg_to m)
                     +:+ " | " +:+ msg_text m) <$> messages)
              ++ [EmptyString])))
    ∧ (∀ m, m ∈ messages →
         String.length (msg_date m) ≤ date_width
         ∧ String.length (msg_from m) ≤ from_width
         ∧ String.length (msg_to m) ≤ to_width)%nat
    ∧ (4 ≤ date_width ∧ 4 ≤ from_width ∧ 2 ≤ to_width)%nat
    ∧ (date_width = 4%nat
       ∨ ∃ m, m ∈ messages ∧ String.length (msg_date m) = date_width)
    ∧ (from_width = 4%nat
       ∨ ∃ m, m ∈ messages ∧ String.length (msg_from m) = from_width)
    ∧ (to_width = 2%nat
       ∨ ∃ m, m ∈ messages ∧ String.length (msg_to m) = to_width).
Proof.
  intros Hne. unfold msgs_human.
  destruct (py_max_total ((λ x, String.length (msg_from x)) <$> messages))
    as [max_from Hfrom]; [by destruct messages|].
  destruct (py_max_total ((λ x, String.length (msg_to x)) <$> messages))
    as [max_to Hto]; [by destruct messages|].
  destruct (py_max_total ((λ x, String.length (msg_date x)) <$> messages))
    as [max_date Hdate]; [by destruct messages|].
  rewrite Hfrom, Hto, Hdate, !res_bind_Ok. cbv beta zeta.
  change (String.length "From") with 4%nat.
  change (String.length "To") with 2%nat.
  change (String.length "Date") with 4%nat.
  apply py_max_spec in Hfrom as [Hfrom_in Hfrom_le].
  apply py_max_spec in Hto as [Hto_in Hto_le].
  apply py_max_spec in Hdate as [Hdate_in Hdate_le].
  exists (Nat.max max_date 4), (Nat.max max_from 4), (Nat.max max_to 2).
  split; [done|]. split; [|split; [lia|split; [|split]]].
  - intros m Hm.
    assert (String.length (msg_date m) ≤ max_date)%nat
      by (apply Hdate_le, list_elem_of_fmap; by exists m).
    assert (String.length (msg_from m) ≤ max_from)%nat
      by (apply Hfrom_le, list_elem_of_fmap; by exists m).
    assert (String.length (msg_to m) ≤ max_to)%nat
      by (apply Hto_le, list_elem_of_fmap; by exists m).
    lia.
  - destruct (Nat.max_spec max_date 4) as [[_ ->]|[_ ->]]; [by left|right].
    apply list_elem_of_fmap in Hdate_in as (m & -> & Hm). by exists m.
  - destruct (Nat.max_spec max_from 4) as [[_ ->]|[_ ->]]; [by left|right].
    apply list_elem_of_fmap in Hfrom_in as (m & -> & Hm). by exists m.
  - destruct (Nat.max_spec max_to 2) as [[_ ->]|[_ ->]]; [by left|right].
    apply list_elem_of_fmap in Hto_in as (m & -> & Hm). by exists m.
Qed.

(** C9: [msgs_human] raises on the empty message list, in the [max] over
    the empty list of widths and before it writes anything, with or
    without header; on every other list it returns its output. *)
Theorem msgs_human_empty (header : bool) :
  msgs_human [] header = Raise ValueError
  ∧ py_max ((λ x, String.length (msg_from x)) <$> []) = Raise ValueError
  ∧ (∀ messages, messages ≠ [] → is_Ok (msgs_human messages header)).
Proof.
  split; [done|]. split; [done|].
  intros messages Hne.
  destruct (msgs_human_lines messages header Hne) as (?&?&?&?&->).
  by eexists.
Qed.

(** The text [msgs_csv] returns: the header row when asked for, then one
    row per message in the order of the list. *)
Lemma msgs_csv_rows (messages : list message) (header : bool) :
  msgs_csv messages header =
  (if header then csv_writerow ["Date"; "From"; "To"; "Text"]%string
   else EmptyString)
  +:+ String.concat EmptyString
        ((λ m, csv_writerow [utf8_encode (msg_date m);
                             utf8_encode (msg_from m);
                             utf8_encode (msg_to m);
                             utf8_encode (msg_text m)]) <$> messages).
Proof.
  unfold msgs_csv. cbv zeta.
  change (EmptyString +:+ csv_writerow ["Date"; "From"; "To"; "Text"]%string)
    with (csv_writerow ["Date"; "From"; "To"; "Text"]%string).
  generalize (if header
              then csv_writerow ["Date"; "From"; "To"; "Text"]%string
              else EmptyString) as queue.
  induction messages as [|m messages IH]; intros queue.
  - by rewrite string_app_nil_r.
  - cbn [foldl fmap list_fmap]. rewrite IH, string_app_assoc.
    f_equal. destruct messages as [|m' messages]; [|done].
    cbn [fmap list_fmap String.concat]. by rewrite string_app_nil_r.
Qed.

(** What [main_messages] does with the rows of the planned statement. *)
Lemma main_messages_rows (numbers : option (list string))
    (date_format identity : string) (aliases : gmap Z string) :
  main_messages numbers date_format identity aliases =
  (_ ← log_params (build_msg_query numbers).2;
   classify_rows date_format identity aliases
     (merge_sort by_rowid (selection numbers)) []).
Proof.
  unfold main_messages. cbv zeta. by rewrite execute_build_msg_query.
Qed.

(** C8: whatever numbers are requested, the planned statement ends in
    [order by rowid], it runs, and its cursor holds the selection (the
    whole message table, or the rows of the resolved groups) in ascending
    rowid order.  [main] then logs the parameters, which ends the run with
    [TypeError] when there are two or more of them, and otherwise goes
    through the rows: when it arrives at a message list, that list holds
    one message per row it keeps, in the order of these rows, which is
    ascending rowid order again, and with at most one parameter it does
    arrive there whenever each kept row can be converted.  Each of the
    three renderers writes the messages in the order of the list: the
    human one a line per message, the csv one a row per message, the json
    one an object per message. *)
Theorem messages_in_rowid_order (numbers : option (list string))
    (date_format identity : string) (aliases : gmap Z string) :
  ∃ rows,
    (∃ pre, (build_msg_query numbers).1 = pre +:+ "order by rowid")
    ∧ execute (build_msg_query numbers).1 (build_msg_query numbers).2
      = Some rows
    ∧ rows ≡ₚ selection numbers
    ∧ StronglySorted by_rowid rows
    ∧ StronglySorted by_rowid (filter (λ r, skip_row r = false) rows)
    ∧ main_messages numbers date_format identity aliases
      = (_ ← log_params (build_msg_query numbers).2;
         classify_rows date_format identity aliases rows [])
    ∧ (2 ≤ length (build_msg_query numbers).2 →
       main_messages numbers date_format identity aliases = Raise TypeError)%nat
    ∧ (∀ messages,
         main_messages numbers date_format identity aliases = Ok messages →
         Forall2
           (λ r m, classify date_format identity aliases r = Ok (Some m))
           (filter (λ r, skip_row r = false) rows) messages)
    ∧ ((length (build_msg_query numbers).2 ≤ 1)%nat →
       (∀ r, r ∈ rows → skip_row r = false →
             is_Ok (classify date_format identity aliases r)) →
       is_Ok (main_messages numbers date_format identity aliases))
    ∧ (∀ messages header, messages ≠ [] →
         ∃ date_width from_width to_width,
           msgs_human messages header =
           Ok (utf8_encode
                 (String.concat (String "010" EmptyString)
                    ((if header
                      then [("Date" +:+ spaces (date_width - 4)) +:+ " | "
                            +:+ ("From" +:+ spaces (from_width - 4))
                            +:+ " | "
                            +:+ ("To" +:+ spaces (to_width - 2)) +:+ " | "
                            +:+ "Text"]
                      else [])
                     ++ ((λ m,
                            (msg_date m
                             +:+ spaces (date_width
                                         - String.length (msg_date m)))
                            +:+ " | "
                            +:+ (spaces (from_width
                                         - String.length (msg_from m))
                                 +:+ msg_from m)
                            +:+ " | "
                            +:+ (spaces (to_width
                                         - String.length (msg_to m))
                                 +:+ msg_to m)
                            +:+ " | " +:+ msg_text m) <$> messages)
                     ++ [EmptyString]))))
    ∧ (∀ messages header,
         msgs_csv messages header =
         (if header then csv_writerow ["Date"; "From"; "To"; "Text"]%string
          else EmptyString)
         +:+ String.concat EmptyString
               ((λ m, csv_writerow [utf8_encode (msg_date m);
                                    utf8_encode (msg_from m);
                                    utf8_encode (msg_to m);
                                    utf8_encode (msg_text m)]) <$> messages))
    ∧ (∀ messages header, messages ≠ [] →
         msgs_json messages header =
         utf8_encode
           ("[" +:+ String "010" "  "
            +:+ String.concat (", " +:+ String "010" "  ")
                  ((λ m,
                      "{" +:+ String "010" "    "
                      +:+ json_string "date" +:+ ": "
                      +:+ json_string (msg_date m) +:+ ", "
                      +:+ String "010" "    "
                      +:+ json_string "from" +:+ ": "
                      +:+ json_string (msg_from m) +:+ ", "
                      +:+ String "010" "    "
                      +:+ json_string "text" +:+ ": "
                      +:+ json_string (msg_text m) +:+ ", "
                      +:+ String "010" "    "
                      +:+ json_string "to" +:+ ": "
                      +:+ json_string (msg_to m)
                      +:+ String "010" "  " +:+ "}") <$> messages)
            +:+ String "010" "]")).
Proof.
  exists (merge_sort by_rowid (selection numbers)).
  split; [apply build_msg_query_order_by|].
  split; [apply execute_build_msg_query|].
  split; [apply merge_sort_Permutation|].
  assert (Hsorted : StronglySorted by_rowid
                      (merge_sort by_rowid (selection numbers)))
    by apply (StronglySorted_merge_sort _).
  split; [done|]. split; [by apply StronglySorted_filter|].
  split; [apply main_messages_rows|].
  rewrite main_messages_rows.
  split; [|split; [|split; [|split; [|split]]]].
  - intros Hlen.
    by destruct (build_msg_query numbers).2 as [|? [|? ?]];
      cbn [length] in Hlen; [lia|lia|].
  - intros messages Hmessages.
    destruct (log_params (build_msg_query numbers).2) as [[]|]; [|done].
    rewrite res_bind_Ok in Hmessages.
    by apply classify_rows_spec in Hmessages as (new & -> & Hnew).
  - intros Hlen Hrows.
    assert (log_params (build_msg_query numbers).2 = Ok ()) as ->.
    { by destruct (build_msg_query numbers).2 as [|? [|? ?]];
        cbn [length] in Hlen; [..|lia]. }
    rewrite res_bind_Ok. by apply classify_rows_total.
  - intros messages header Hne.
    destruct (msgs_human_text messages header Hne) as (dw & fw & tw & H & _).
    by exists dw, fw, tw.
  - apply msgs_csv_rows.
  - intros messages header Hne. unfold msgs_json, json_dumps.
    by destruct messages.
Qed.


(** ** Further properties *)

(** *** PhoneNormalizer *)

Lemma strip_app a b : strip (a +:+ b) = strip a +:+ strip b.
Proof.
  induction a as [|c a IH]; [done|].
  change (String c a +:+ b) with (String c (a +:+ b)). cbn [strip].
  rewrite IH. by destruct (is_digit c).
Qed.

Lemma strip_length phone : len (strip phone) ≤ len phone.
Proof.
  unfold len. induction phone as [|c rest IH]; [done|].
  cbn [strip]. destruct (is_digit c); cbn [String.length]; lia.
Qed.

(** X1: [strip] keeps the digits and nothing else: its result holds digits
    only, is never longer than the input, is left alone by a second
    [strip], and the digits of a concatenation are the digits of its
    parts. *)
Theorem strip_keeps_digits (a b : string) :
  string_forallb is_digit (strip a) = true
  ∧ strip (strip a) = strip a
  ∧ len (strip a) ≤ len a
  ∧ strip (a +:+ b) = strip a +:+ strip b.
Proof.
  split; [apply strip_is_digits|].
  split; [apply strip_digits, strip_is_digits|].
  split; [apply strip_length|apply strip_app].
Qed.

Lemma string_length_10 (d : string) : len d = 10 →
  ∃ c0 c1 c2 c3 c4 c5 c6 c7 c8 c9,
    d = String c0 (String c1 (String c2 (String c3 (String c4 (String c5
        (String c6 (String c7 (String c8 (String c9 EmptyString))))))))).
Proof.
  unfold len. intros H.
  do 10 (destruct d as [|? d]; [simpl in H; lia|]).
  destruct d; [|simpl in H; lia].
  by repeat eexists.
Qed.

Lemma us_text_ascii c0 c1 c2 c3 c4 c5 c6 c7 c8 c9 :
  string_forallb is_digit
    (String c0 (String c1 (String c2 (String c3 (String c4 (String c5
    (String c6 (String c7 (String c8 (String c9 EmptyString))))))))))
  = true →
  string_forallb is_ascii (us_text c0 c1 c2 c3 c4 c5 c6 c7 c8 c9) = true.
Proof. intros Hd. split_digits Hd. unfold us_text. ascii_chars. Qed.

Lemma us_text_strip c0 c1 c2 c3 c4 c5 c6 c7 c8 c9 :
  string_forallb is_digit
    (String c0 (String c1 (String c2 (String c3 (String c4 (String c5
    (String c6 (String c7 (String c8 (String c9 EmptyString))))))))))
  = true →
  strip (us_text c0 c1 c2 c3 c4 c5 c6 c7 c8 c9)
  = String c0 (String c1 (String c2 (String c3 (String c4 (String c5
    (String c6 (String c7 (String c8 (String c9 EmptyString))))))))).
Proof.
  intros Hd. cbn [string_forallb] in Hd.
  repeat (apply andb_prop in Hd as [? Hd]).
  unfold us_text. cbn [strip].
  change (is_digit "(") with false. change (is_digit ")") with false.
  change (is_digit " ") with false. change (is_digit "-") with false.
  by repeat match goal with H : is_digit _ = true |- _ => rewrite H; clear H end.
Qed.

(** Ten digits, with whatever stands between them. *)
Lemma format_phone_ten phone c0 c1 c2 c3 c4 c5 c6 c7 c8 c9 :
  strip phone
  = String c0 (String c1 (String c2 (String c3 (String c4 (String c5
    (String c6 (String c7 (String c8 (String c9 EmptyString))))))))) →
  format_phone phone = Ok (us_text c0 c1 c2 c3 c4 c5 c6 c7 c8 c9).
Proof.
  intros Hph. pose proof (strip_is_digits phone) as Hd. rewrite Hph in Hd.
  unfold format_phone. rewrite Hph.
  apply unicode_decode_ascii, us_text_ascii, Hd.
Qed.

(** Eleven digits, the first of them 1. *)
Lemma format_phone_eleven phone c1 c2 c3 c4 c5 c6 c7 c8 c9 c10 :
  strip phone
  = String "1" (String c1 (String c2 (String c3 (String c4 (String c5
    (String c6 (String c7 (String c8 (String c9
    (String c10 EmptyString)))))))))) →
  format_phone phone = Ok (us_text c1 c2 c3 c4 c5 c6 c7 c8 c9 c10).
Proof.
  intros Hph. pose proof (strip_is_digits phone) as Hd. rewrite Hph in Hd.
  cbn [string_forallb] in Hd. apply andb_prop in Hd as [_ Hd].
  unfold format_phone. rewrite Hph.
  apply unicode_decode_ascii, us_text_ascii, Hd.
Qed.

Lemma format_phone_short phone :
  len (strip phone) < 10 → format_phone phone = Ok (strip phone).
Proof.
  intros Hlen. unfold format_phone.
  destruct (Z.ltb_spec (len (strip phone)) 10); [|lia].
  apply unicode_decode_ascii, digits_ascii, strip_is_digits.
Qed.

Lemma format_phone_other phone :
  11 < len (strip phone)
  ∨ (len (strip phone) = 11 ∧ first_char (strip phone) ≠ Some "1"%char) →
  format_phone phone = unicode_decode phone.
Proof.
  intros Hcase. unfold format_phone.
  destruct (Z.ltb_spec (len (strip phone)) 10); [lia|].
  destruct (Z.eqb_spec (len (strip phone)) 10); [lia|].
  destruct (Z.eqb_spec (len (strip phone)) 11); [|done].
  rewrite bool_decide_eq_false_2; [done|].
  by destruct Hcase as [?|[_ ?]]; [lia|].
Qed.

(** The four cases of [format_phone], by the digits of its argument. *)
Lemma format_phone_cases phone :
  (len (strip phone) < 10 ∧ format_phone phone = Ok (strip phone))
  ∨ (∃ c0 c1 c2 c3 c4 c5 c6 c7 c8 c9,
       strip phone
       = String c0 (String c1 (String c2 (String c3 (String c4 (String c5
         (String c6 (String c7 (String c8 (String c9 EmptyString)))))))))
       ∧ format_phone phone = Ok (us_text c0 c1 c2 c3 c4 c5 c6 c7 c8 c9))
  ∨ (∃ c1 c2 c3 c4 c5 c6 c7 c8 c9 c10,
       strip phone
       = String "1" (String c1 (String c2 (String c3 (String c4 (String c5
         (String c6 (String c7 (String c8 (String c9
         (String c10 EmptyString))))))))))
       ∧ format_phone phone = Ok (us_text c1 c2 c3 c4 c5 c6 c7 c8 c9 c10))
  ∨ ((11 < len (strip phone)
      ∨ (len (strip phone) = 11 ∧ first_char (strip phone) ≠ Some "1"%char))
     ∧ format_phone phone = unicode_decode phone).
Proof.
  destruct (Z.lt_ge_cases (len (strip phone)) 10) as [Hlt|Hge].
  { left. split; [done|by apply format_phone_short]. }
  right. destruct (decide (len (strip phone) = 10)) as [H10|Hne10].
  { left. destruct (string_length_10 _ H10)
      as (c0&c1&c2&c3&c4&c5&c6&c7&c8&c9&Hph).
    exists c0, c1, c2, c3, c4, c5, c6, c7, c8, c9.
    split; [done|by apply format_phone_ten]. }
  right.
  destruct (decide (len (strip phone) = 11
                    ∧ first_char (strip phone) = Some "1"%char))
    as [[H11 Hfirst]|Hother].
  { left. destruct (string_length_11 _ H11)
      as (c0&c1&c2&c3&c4&c5&c6&c7&c8&c9&c10&Hph).
    rewrite Hph in Hfirst. injection Hfirst as ->.
    exists c1, c2, c3, c4, c5, c6, c7, c8, c9, c10.
    split; [done|by apply format_phone_eleven]. }
  right.
  assert (Hcase : 11 < len (strip phone)
                  ∨ (len (strip phone) = 11
                     ∧ first_char (strip phone) ≠ Some "1"%char)).
  { destruct (decide (len (strip phone) = 11)) as [H11|?]; [|lia].
    right. split; [done|]. intros Hfirst. by apply Hother. }
  split; [done|by apply format_phone_other].
Qed.

(** X2: With fewer than ten digits [format_phone] returns the digits and
    nothing else: whatever else the argument holds is dropped, and the
    final decode cannot raise. *)
Theorem format_phone_short_digits (phone : string) :
  len (strip phone) < 10 →
  format_phone phone = Ok (strip phone)
  ∧ string_forallb is_digit (strip phone) = true.
Proof.
  intros Hlen. split; [by apply format_phone_short|apply strip_is_digits].
Qed.

(** X3: With ten digits, however they are punctuated, [format_phone] writes
    the first three in parentheses, a blank, the next three, a dash and
    the last four: fourteen characters that hold the same ten digits. *)
Theorem format_phone_ten_digits (phone : string) :
  len (strip phone) = 10 →
  ∃ formatted,
    format_phone phone = Ok formatted
    ∧ formatted = "(" +:+ slice (strip phone) 0 3 +:+ ") "
                  +:+ slice (strip phone) 3 6 +:+ "-"
                  +:+ slice (strip phone) 6 10
    ∧ len formatted = 14
    ∧ strip formatted = strip phone.
Proof.
  intros Hlen.
  destruct (string_length_10 _ Hlen) as (c0&c1&c2&c3&c4&c5&c6&c7&c8&c9&Hph).
  exists (us_text c0 c1 c2 c3 c4 c5 c6 c7 c8 c9).
  split; [by apply format_phone_ten|].
  rewrite Hph. split; [done|]. split; [done|].
  apply us_text_strip. rewrite <- Hph. apply strip_is_digits.
Qed.

(** X4: [format_phone] raises in one situation only: its argument is left as
    it is (more than eleven digits, or eleven that do not start with 1)
    and holds a non-ASCII character.  On ASCII text it always answers. *)
Theorem format_phone_raises_iff (phone : string) (e : exn) :
  format_phone phone = Raise e ↔
  e = UnicodeError
  ∧ (11 < len (strip phone)
     ∨ (len (strip phone) = 11 ∧ first_char (strip phone) ≠ Some "1"%char))
  ∧ string_forallb is_ascii phone = false.
Proof.
  split.
  - intros Hraise.
    destruct (format_phone_cases phone)
      as [[_ H]|[(?&?&?&?&?&?&?&?&?&?&_&H)
         |[(?&?&?&?&?&?&?&?&?&?&_&H)|[Hcase H]]]];
      rewrite H in Hraise; try done.
    unfold unicode_decode in Hraise.
    destruct (string_forallb is_ascii phone); [done|].
    by injection Hraise as <-.
  - intros (-> & Hcase & Hascii).
    rewrite (format_phone_other _ Hcase). unfold unicode_decode.
    by rewrite Hascii.
Qed.

(** X5: What [format_phone] returns stands for the same number: formatting it
    again changes nothing, its last ten digits are those of the argument,
    and [query_group_ids] resolves it to the same groups. *)
Theorem format_phone_same_number (phone formatted : string) :
  format_phone phone = Ok formatted →
  format_phone formatted = Ok formatted
  ∧ slice_from (strip formatted) (-10) = slice_from (strip phone) (-10)
  ∧ query_group_ids formatted = query_group_ids phone.
Proof.
  intros Hfmt.
  assert (Hboth : format_phone formatted = Ok formatted
            ∧ slice_from (strip formatted) (-10)
              = slice_from (strip phone) (-10)).
  { destruct (format_phone_cases phone)
      as [[Hlen H]|[(c0&c1&c2&c3&c4&c5&c6&c7&c8&c9&Hph&H)
         |[(c1&c2&c3&c4&c5&c6&c7&c8&c9&c10&Hph&H)|[Hcase H]]]];
      rewrite H in Hfmt.
    - injection Hfmt as <-.
      assert (Hss : strip (strip phone) = strip phone)
        by apply strip_digits, strip_is_digits.
      split; [|by rewrite Hss]. rewrite <- Hss at 2.
      apply format_phone_short. by rewrite Hss.
    - injection Hfmt as <-.
      assert (Hs : strip (us_text c0 c1 c2 c3 c4 c5 c6 c7 c8 c9)
                   = strip phone).
      { rewrite Hph. apply us_text_strip. rewrite <- Hph.
        apply strip_is_digits. }
      split; [|by rewrite Hs]. apply format_phone_ten. by rewrite Hs.
    - injection Hfmt as <-.
      pose proof (strip_is_digits phone) as Hd. rewrite Hph in Hd.
      cbn [string_forallb] in Hd. apply andb_prop in Hd as [_ Hd].
      pose proof (us_text_strip _ _ _ _ _ _ _ _ _ _ Hd) as Hs.
      split; [by apply format_phone_ten|]. by rewrite Hs, Hph.
    - apply unicode_decode_inv in Hfmt as Heq. subst formatted.
      split; [|done]. by rewrite (format_phone_other _ Hcase). }
  destruct Hboth as [Hagain Hsuffix]. split; [done|]. split; [done|].
  unfold query_group_ids. by rewrite Hsuffix.
Qed.

(** *** Validation *)

Lemma split_eq_spec (a l r : string) :
  split_eq a = Some (l, r) ↔
  a = l +:+ "=" +:+ r ∧ string_forallb not_eq_sign l = true.
Proof.
  revert l. induction a as [|c a IH]; intros l.
  - split; [done|]. by intros [Heq _]; destruct l.
  - cbn [split_eq]. destruct (Ascii.eqb_spec c "=") as [->|Hc].
    + split.
      * intros [= ? ?]. by subst.
      * intros [Heq Hl]. destruct l as [|c' l].
        -- change (String "=" a = String "=" r) in Heq. by injection Heq as ->.
        -- injection Heq as <- _. done.
    + destruct (split_eq a) as [[l' r']|] eqn:Ha.
      * split.
        -- intros [= <- <-]. destruct (IH l') as [[-> Hl'] _]; [done|].
           split; [done|]. cbn [string_forallb]. rewrite Hl'.
           unfold not_eq_sign. by destruct (Ascii.eqb_spec c "=").
        -- intros [Heq Hl]. destruct l as [|c' l]; [by injection Heq|].
           injection Heq as <- Heq.
           cbn [string_forallb] in Hl. apply andb_prop in Hl as [_ Hl].
           destruct (IH l) as [_ Hback].
           by injection (Hback (conj Heq Hl)) as -> ->.
      * split; [done|]. intros [Heq Hl].
        destruct l as [|c' l]; [by injection Heq|].
        injection Heq as <- Heq.
        cbn [string_forallb] in Hl. apply andb_prop in Hl as [_ Hl].
        destruct (IH l) as [_ Hback]. by specialize (Hback (conj Heq Hl)).
Qed.

(** The pattern of [validate_aliases] and [alias_map] accepts the texts
    with one equals sign that has something on either side, and returns
    the two sides. *)
Lemma match_alias_spec (a number name : string) :
  match_alias a = Some (number, name) ↔
  a = number +:+ "=" +:+ name
  ∧ number ≠ EmptyString ∧ name ≠ EmptyString
  ∧ string_forallb not_eq_sign number = true
  ∧ string_forallb not_eq_sign name = true.
Proof.
  unfold match_alias. split.
  - destruct (split_eq a) as [[l r]|] eqn:Ha; [|done].
    apply split_eq_spec in Ha as [-> Hl].
    destruct (String.eqb_spec l EmptyString) as [|Hl']; [done|].
    destruct (String.eqb_spec r EmptyString) as [|Hr']; [done|].
    destruct (string_forallb not_eq_sign r) eqn:Hr; [|done].
    by intros [= <- <-].
  - intros (Heq & Hnumber & Hname & Hl & Hr).
    destruct (split_eq_spec a number name) as [_ ->]; [|done].
    destruct (String.eqb_spec number EmptyString); [done|].
    destruct (String.eqb_spec name EmptyString); [done|].
    by rewrite Hr.
Qed.

Lemma valid_phone_spec phone :
  valid_phone phone = true ↔ 5 ≤ len (strip phone).
Proof.
  unfold valid_phone.
  destruct (Z.leb_spec 5 (len (strip phone))); split; (done || lia).
Qed.

Lemma validate_alias_list_spec (aliases : list string) :
  (validate_alias_list aliases = Ok () ↔
   ∀ a, a ∈ aliases → ∃ number name,
     match_alias a = Some (number, name) ∧ valid_phone number = true)
  ∧ (validate_alias_list aliases = Ok ()
     ∨ validate_alias_list aliases = Raise ValueError).
Proof.
  induction aliases as [|a aliases [IH1 IH2]].
  - split; [|by left]. split; [|done]. intros _ a Ha.
    by apply elem_of_nil in Ha.
  - cbn [validate_alias_list].
    destruct (match_alias a) as [[number name]|] eqn:Ha.
    + destruct (valid_phone number) eqn:Hvalid.
      * split; [|done]. rewrite IH1. split.
        -- intros Hall a' [->|Hin]%elem_of_cons; [by exists number, name|].
           by apply Hall.
        -- intros Hall a' Hin. apply Hall. by right.
      * split; [|by right]. split; [done|]. intros Hall.
        destruct (Hall a) as (number' & name' & Ha' & Hvalid'); [by left|].
        rewrite Ha in Ha'. injection Ha' as <- <-. congruence.
    + split; [|by right]. split; [done|]. intros Hall.
      destruct (Hall a) as (number' & name' & Ha' & _); [by left|].
      congruence.
Qed.

Lemma validate_number_list_spec (numbers : list string) :
  (validate_number_list numbers = Ok () ↔
   ∀ n, n ∈ numbers → valid_phone n = true)
  ∧ (validate_number_list numbers = Ok ()
     ∨ validate_number_list numbers = Raise ValueError).
Proof.
  induction numbers as [|n numbers [IH1 IH2]].
  - split; [|by left]. split; [|done]. intros _ n Hn.
    by apply elem_of_nil in Hn.
  - cbn [validate_number_list]. destruct (valid_phone n) eqn:Hvalid.
    + split; [|done]. rewrite IH1. split.
      * by intros Hall n' [->|Hin]%elem_of_cons; [|apply Hall].
      * intros Hall n' Hin. apply Hall. by right.
    + split; [|by right]. split; [done|]. intros Hall.
      specialize (Hall n). rewrite Hvalid in Hall.
      by discriminate Hall; left.
Qed.

(** X6: [validate] accepts the options when every alias is a number, one
    equals sign and a name, both non-empty, with at least five digits in
    the number, and every requested number has at least five digits; in
    any other case it raises [ValueError], and nothing else. *)
Theorem validate_accepts_iff (aliases numbers : list string) :
  (validate (Some aliases) (Some numbers) = Ok () ↔
   (∀ a, a ∈ aliases → ∃ number name,
      a = number +:+ "=" +:+ name
      ∧ number ≠ EmptyString ∧ name ≠ EmptyString
      ∧ string_forallb not_eq_sign number = true
      ∧ string_forallb not_eq_sign name = true
      ∧ 5 ≤ len (strip number))
   ∧ (∀ n, n ∈ numbers → 5 ≤ len (strip n)))
  ∧ (validate (Some aliases) (Some numbers) = Ok ()
     ∨ validate (Some aliases) (Some numbers) = Raise ValueError)
  ∧ validate None None = Ok ().
Proof.
  destruct (validate_alias_list_spec aliases) as [Ha1 Ha2].
  destruct (validate_number_list_spec numbers) as [Hn1 Hn2].
  assert (Hiff : validate (Some aliases) (Some numbers) = Ok () ↔
            validate_alias_list aliases = Ok ()
            ∧ validate_number_list numbers = Ok ()).
  { unfold validate. cbn [validate_aliases validate_numbers].
    destruct (validate_alias_list aliases) as [[]|e]; simpl; [|by split; [|intros []]].
    by split; [|intros []]. }
  split; [|split; [|done]].
  - rewrite Hiff, Ha1, Hn1. setoid_rewrite match_alias_spec.
    setoid_rewrite valid_phone_spec. split.
    + intros [Hall Hnum]. split; [|done]. intros a Hin.
      destruct (Hall a Hin) as (number & name & (?&?&?&?&?) & ?).
      by exists number, name.
    + intros [Hall Hnum]. split; [|done]. intros a Hin.
      destruct (Hall a Hin) as (number & name & ?&?&?&?&?&?).
      by exists number, name.
  - unfold validate. cbn [validate_aliases validate_numbers].
    destruct Ha2 as [-> | ->]; [|by right]. simpl. done.
Qed.

(** *** AliasResolver *)

Lemma alias_register_raises (name : string) (group_ids : list Z)
    (result : gmap Z string) (e : exn) :
  alias_register name group_ids result = Raise e →
  e = UnicodeError ∧ group_ids ≠ [] ∧ utf8_decode name = None.
Proof.
  revert result. induction group_ids as [|g group_ids IH]; intros result.
  - done.
  - cbn [alias_register].
    destruct (utf8_decode name) as [alias|] eqn:Hname; simpl.
    + intros Hrest. destruct (IH _ Hrest) as (? & _ & ?). done.
    + by intros [= <-].
Qed.

Lemma alias_loop_raises (aliases : list string) (result : gmap Z string)
    (e : exn) :
  alias_loop aliases result = Raise e →
  (e = AttributeError ∧ ∃ a, a ∈ aliases ∧ match_alias a = None)
  ∨ (e = UnicodeError
     ∧ ∃ a number name, a ∈ aliases ∧ match_alias a = Some (number, name)
         ∧ is_Some (query_group_ids number) ∧ utf8_decode name = None).
Proof.
  revert result. induction aliases as [|a aliases IH]; intros result; [done|].
  cbn [alias_loop].
  assert (Hrest : ∀ result', alias_loop aliases result' = Raise e →
    (e = AttributeError ∧ ∃ a', a' ∈ a :: aliases ∧ match_alias a' = None)
    ∨ (e = UnicodeError
       ∧ ∃ a' number name, a' ∈ a :: aliases
           ∧ match_alias a' = Some (number, name)
           ∧ is_Some (query_group_ids number) ∧ utf8_decode name = None)).
  { intros result' [[-> (a' & Hin & Ha')]
                   |[-> (a' & n & m & Hin & Ha' & Hq & Hm)]]%IH.
    - left. split; [done|]. exists a'. split; [by right|done].
    - right. split; [done|]. exists a', n, m. split; [by right|done]. }
  destruct (match_alias a) as [[number name]|] eqn:Ha; simpl.
  - destruct (query_group_ids number) as [group_ids|] eqn:Hq; [|apply Hrest].
    destruct (alias_register name group_ids result) as [result1|e1] eqn:Hreg;
      simpl; [apply Hrest|].
    intros [= ->]. apply alias_register_raises in Hreg as (-> & _ & Hname).
    right. split; [done|]. exists a, number, name.
    split; [by left|]. by rewrite Hq.
  - intros [= <-]. left. split; [done|]. exists a. split; [by left|done].
Qed.

(** X7: [alias_map] can raise in two ways only: [AttributeError] on an alias
    that does not match the pattern (in [m.group] on [None]), which cannot
    happen on a list [validate_aliases] accepted, and a decoding error on
    the name of an alias whose number resolved.  The first alias that does
    not match stops the run when the ones before it went through. *)
Theorem alias_map_raises (aliases : list string) (e : exn) :
  (alias_map (Some aliases) = Raise e →
   (e = AttributeError ∧ ∃ a, a ∈ aliases ∧ match_alias a = None)
   ∨ (e = UnicodeError
      ∧ ∃ a number name, a ∈ aliases ∧ match_alias a = Some (number, name)
          ∧ is_Some (query_group_ids number) ∧ utf8_decode name = None))
  ∧ (validate_aliases (Some aliases) = Ok () →
     alias_map (Some aliases) ≠ Raise AttributeError)
  ∧ (∀ l1 a l2, aliases = l1 ++ a :: l2 →
       is_Ok (alias_map (Some l1)) → match_alias a = None →
       alias_map (Some aliases) = Raise AttributeError).
Proof.
  split; [apply alias_loop_raises|]. split.
  - intros Hvalid Hraise.
    apply alias_loop_raises in Hraise as [[_ (a & Hin & Ha)]|[? _]]; [|done].
    destruct (validate_alias_list_match _ a Hvalid Hin) as (?&?&Ha'&_).
    congruence.
  - intros l1 a l2 -> [result Hl1] Ha. unfold alias_map in *.
    rewrite alias_loop_app, Hl1, res_bind_Ok. cbn [alias_loop].
    by rewrite Ha.
Qed.

(** The loop keeps the entries it starts with, adds one for every group
    id an alias resolves to, and fills them with decoded names only. *)
Lemma alias_loop_entries (aliases : list string)
    (result result' : gmap Z string) :
  alias_loop aliases result = Ok result' →
  (∀ gid, is_Some (result !! gid) → is_Some (result' !! gid))
  ∧ (∀ a number name group_ids gid,
       a ∈ aliases → match_alias a = Some (number, name) →
       query_group_ids number = Some group_ids → gid ∈ group_ids →
       is_Some (result' !! gid))
  ∧ (∀ gid alias, result' !! gid = Some alias →
       result !! gid = Some alias
       ∨ ∃ a number name group_ids,
           a ∈ aliases ∧ match_alias a = Some (number, name)
           ∧ query_group_ids number = Some group_ids ∧ gid ∈ group_ids
           ∧ utf8_decode name = Some alias).
Proof.
  revert result. induction aliases as [|a aliases IH]; intros result.
  - intros [= <-]. split; [done|]. split; [|by left].
    intros a ? ? ? ? Hin. by apply elem_of_nil in Hin.
  - cbn [alias_loop].
    destruct (match_alias a) as [[number name]|] eqn:Ha; simpl; [|done].
    destruct (query_group_ids number) as [group_ids|] eqn:Hq.
    + destruct (alias_register name group_ids result) as [result1|] eqn:Hreg;
        simpl; [|done].
      intros (Hkeep & Hnew & Hval)%IH.
      pose proof (alias_register_spec _ _ _ _ Hreg) as Hspec.
      assert (Hname : group_ids ≠ [] → is_Some (utf8_decode name)).
      { destruct group_ids as [|g group_ids]; [done|]. intros _.
        cbn [alias_register] in Hreg.
        by destruct (utf8_decode name); [eexists|]. }
      split; [|split].
      * intros gid Hgid. apply Hkeep. rewrite Hspec.
        destruct (decide (gid ∈ group_ids)) as [Hin|]; [|done].
        apply Hname. intros ->. by apply elem_of_nil in Hin.
      * intros a' n' m' g' gid [->|Hin]%elem_of_cons Ha' Hq' Hgid.
        -- rewrite Ha in Ha'. injection Ha' as <- <-.
           rewrite Hq in Hq'. injection Hq' as <-.
           apply Hkeep. rewrite Hspec, decide_True by done.
           apply Hname. intros ->. by apply elem_of_nil in Hgid.
        -- by eapply Hnew.
      * intros gid alias [Hold|(a'&n'&m'&g'&Hin&?&?&?&?)]%Hval.
        -- rewrite Hspec in Hold.
           destruct (decide (gid ∈ group_ids)) as [Hin|]; [|by left].
           right. exists a, number, name, group_ids.
           by repeat split; [left|..].
        -- right. exists a', n', m', g'. by repeat split; [right|..].
    + intros (Hkeep & Hnew & Hval)%IH. split; [done|]. split.
      * intros a' n' m' g' gid [->|Hin]%elem_of_cons Ha' Hq' Hgid.
        -- rewrite Ha in Ha'. injection Ha' as <- <-. congruence.
        -- by eapply Hnew.
      * intros gid alias [Hold|(a'&n'&m'&g'&Hin&?&?&?&?)]%Hval; [by left|].
        right. exists a', n', m', g'. by repeat split; [right|..].
Qed.

(** X8: When [alias_map] answers, its dictionary has an entry for every group
    id that [query_group_ids] returned for the number of any alias, and
    every entry holds the decoded name of an alias that resolved to its
    key. *)
Theorem alias_map_entries (aliases : list string) (result : gmap Z string) :
  alias_map (Some aliases) = Ok result →
  (∀ a number name group_ids gid,
     a ∈ aliases → match_alias a = Some (number, name) →
     query_group_ids number = Some group_ids → gid ∈ group_ids →
     gid ∈ dom result)
  ∧ (∀ gid alias, result !! gid = Some alias →
       ∃ a number name group_ids,
         a ∈ aliases ∧ match_alias a = Some (number, name)
         ∧ query_group_ids number = Some group_ids ∧ gid ∈ group_ids
         ∧ utf8_decode name = Some alias).
Proof.
  intros (_ & Hnew & Hval)%alias_loop_entries. split.
  - intros a number name group_ids gid Hin Ha Hq Hgid.
    apply elem_of_dom. by eapply Hnew.
  - intros gid alias [Hold|?]%Hval; [|done].
    by rewrite lookup_empty in Hold.
Qed.

(** *** GroupResolver and QueryPlanner *)

(** X9: A phone number without any digit asks [LIKE '%'], which every stored
    address matches: all group ids of the table come back.  The numbers
    [valid_phone] accepts keep at least five digits to match on. *)
Theorem query_group_ids_no_digits (phone : string) :
  (strip phone = EmptyString →
   query_group_ids phone =
     match group_member_table COPY_DB with
     | [] => None
     | _ :: _ => Some (member_group_id <$> group_member_table COPY_DB)
     end)
  ∧ (valid_phone phone = true →
     5 ≤ len (slice_from (strip phone) (-10)) ≤ 10).
Proof.
  split.
  - intros Hnone. rewrite query_group_ids_filter, Hnone.
    change (slice_from EmptyString (-10)) with EmptyString.
    replace (filter _ (group_member_table COPY_DB))
      with (group_member_table COPY_DB); [done|].
    induction (group_member_table COPY_DB) as [|m l IH]; [done|].
    rewrite filter_cons, decide_True, <- IH; [done|].
    apply has_suffix_spec. exists (strip (member_address m)).
    by rewrite string_app_nil_r.
  - intros Hvalid%valid_phone_spec.
    destruct (slice_from_end (strip phone) 10) as [_ Hlen]; [lia|].
    change (- (10)) with (-10) in Hlen. lia.
Qed.

Lemma count_qmarks_app s1 s2 :
  count_qmarks (s1 +:+ s2) = (count_qmarks s1 + count_qmarks s2)%nat.
Proof.
  induction s1 as [|c s1 IH]; [done|].
  change (String c s1 +:+ s2) with (String c (s1 +:+ s2)).
  cbn [count_qmarks]. rewrite IH. lia.
Qed.

Lemma question_marks_placeholder_S (num : nat) :
  question_marks_placeholder (S (S num)) =
  "?, " +:+ question_marks_placeholder (S num).
Proof. done. Qed.

Lemma question_marks_placeholder_count (num : nat) :
  count_qmarks (question_marks_placeholder num) = num
  ∧ String.length (question_marks_placeholder num) = (3 * num - 2)%nat.
Proof.
  destruct num as [|num]; [done|].
  induction num as [|num [IH1 IH2]]; [done|].
  rewrite question_marks_placeholder_S, count_qmarks_app, string_length_app.
  rewrite IH1, IH2. cbn [count_qmarks String.length]. simpl. lia.
Qed.

(** X10: [question_marks_placeholder] writes [num] question marks with a comma
    and a blank between neighbours, and the statement [build_msg_query]
    plans always has as many question marks as it has parameters. *)
Theorem build_msg_query_placeholders (numbers : option (list string))
    (num : nat) :
  count_qmarks (question_marks_placeholder num) = num
  ∧ String.length (question_marks_placeholder num) = (3 * num - 2)%nat
  ∧ count_qmarks (build_msg_query numbers).1
    = length (build_msg_query numbers).2.
Proof.
  destruct (question_marks_placeholder_count num) as [Hcount Hlen].
  split; [done|]. split; [done|]. unfold build_msg_query.
  destruct (collect_group_ids numbers) as [|gid group_ids]; [done|].
  cbn [fst snd]. unfold select_in. rewrite !count_qmarks_app.
  by destruct (question_marks_placeholder_count (length (gid :: group_ids)))
    as [-> _].
Qed.

Lemma foldl_collect (l : list string) (group_ids : list Z) :
  foldl (λ group_ids n,
           match query_group_ids n with
           | Some gids => group_ids ++ gids
           | None => group_ids
           end) group_ids l
  = group_ids ++ (l ≫= λ n, default [] (query_group_ids n)).
Proof.
  revert group_ids. induction l as [|n l IH]; intros group_ids.
  - by rewrite app_nil_r.
  - cbn [foldl]. rewrite IH.
    change ((n :: l) ≫= λ n, default [] (query_group_ids n))
      with (default [] (query_group_ids n)
            ++ (l ≫= λ n, default [] (query_group_ids n))).
    destruct (query_group_ids n) as [gids|]; [by rewrite <- app_assoc|done].
Qed.

(** X11: When some requested number resolves, [build_msg_query] plans the
    select with a [where] clause; its parameters are the group ids of the
    requested numbers in the order of the request, the numbers that do not
    resolve adding nothing; and the cursor of the statement holds, each
    once, the rows of the message table whose group id is that of a
    requested number.  [main] reaches these rows with one parameter only:
    with two or more its logging of the parameters raises [TypeError], and
    no row is fetched. *)
Theorem build_msg_query_filtered (numbers : list string) (n : string)
    (gids : list Z) :
  n ∈ numbers → query_group_ids n = Some gids →
  let params := numbers ≫= λ n, default [] (query_group_ids n) in
  build_msg_query (Some numbers)
  = (select_in (question_marks_placeholder (length params)), params)
  ∧ params ≠ []
  ∧ ∃ rows,
      execute (build_msg_query (Some numbers)).1
              (build_msg_query (Some numbers)).2 = Some rows
      ∧ rows ≡ₚ filter (λ r, group_id r ∈ params) (message_table COPY_DB)
      ∧ (∀ r, r ∈ rows ↔
           r ∈ message_table COPY_DB
           ∧ ∃ n' gids', n' ∈ numbers ∧ query_group_ids n' = Some gids'
                         ∧ group_id r ∈ gids')
      ∧ (∀ date_format identity aliases,
           (length params = 1%nat →
            main_messages (Some numbers) date_format identity aliases
            = classify_rows date_format identity aliases rows [])
           ∧ ((2 ≤ length params)%nat →
              main_messages (Some numbers) date_format identity aliases
              = Raise TypeError)).
Proof.
  intros Hn Hq params.
  assert (Hcollect : collect_group_ids (Some numbers) = params).
  { unfold collect_group_ids. by rewrite foldl_collect. }
  assert (Hin : ∀ gid, gid ∈ params ↔
            ∃ n' gids', n' ∈ numbers ∧ query_group_ids n' = Some gids'
                        ∧ gid ∈ gids').
  { intros gid. unfold params. rewrite list_elem_of_bind. split.
    - intros (n' & Hgid & Hn').
      destruct (query_group_ids n') as [gids'|] eqn:Hq'.
      + by exists n', gids'.
      + by apply elem_of_nil in Hgid.
    - intros (n' & gids' & Hn' & Hq' & Hgid). exists n'.
      by rewrite Hq'. }
  assert (Hne : params ≠ []).
  { assert (Hgids : gids ≠ []).
    { unfold query_group_ids in Hq.
      destruct (filter _ _) as [|m l]; [done|]. by injection Hq as <-. }
    destruct gids as [|gid gids]; [done|].
    intros Hnil. assert (gid ∈ params) as Hgid.
    { apply Hin. exists n, (gid :: gids). by repeat split; [..|left]. }
    rewrite Hnil in Hgid. by apply elem_of_nil in Hgid. }
  assert (Hquery : build_msg_query (Some numbers)
            = (select_in (question_marks_placeholder (length params)),
               params)).
  { unfold build_msg_query. rewrite Hcollect. by destruct params. }
  assert (Hselection : selection (Some numbers)
            = filter (λ r, group_id r ∈ params) (message_table COPY_DB)).
  { unfold selection. rewrite Hcollect. by destruct params. }
  split; [done|]. split; [done|].
  exists (merge_sort by_rowid
            (filter (λ r, group_id r ∈ params) (message_table COPY_DB))).
  split; [rewrite Hquery; apply execute_select_in|].
  split; [apply merge_sort_Permutation|]. split.
  - intros r. rewrite merge_sort_Permutation, list_elem_of_filter, Hin.
    by split; intros [? ?].
  - intros date_format identity aliases.
    rewrite main_messages_rows, Hselection, Hquery. cbn [snd]. split.
    + intros Hlen. by destruct params as [|? [|? ?]].
    + intros Hlen. destruct params as [|? [|? ?]]; cbn [length] in Hlen;
        [lia|lia|done].
Qed.

(** *** MessageClassifier *)

Lemma classify_skipped (date_format identity : string)
    (aliases : gmap Z string) (row : message_row) :
  classify date_format identity aliases row = Ok None ↔ skip_row row = true.
Proof.
  unfold classify. destruct (skip_row row); [done|]. split; [|done].
  destruct (convert_date _ _); simpl; [|done].
  by destruct (convert_address _ _ _).
Qed.

(** X12: A message only comes from a row with flag 2 or 3, an address and a
    text: it carries the text of the row as it is, the converted date, and
    the decoded identity as recipient of an incoming and as sender of an
    outgoing message. *)
Theorem classify_message (date_format identity : string)
    (aliases : gmap Z string) (row : message_row) (m : message) :
  classify date_format identity aliases row = Ok (Some m) →
  skip_row row = false
  ∧ (flags row = 2 ∨ flags row = 3)
  ∧ (∃ a, address row = Some a ∧ a ≠ EmptyString)
  ∧ text row = Some (msg_text m) ∧ msg_text m ≠ EmptyString
  ∧ convert_date (date row) date_format = Ok (msg_date m)
  ∧ convert_address row identity aliases = Ok (msg_from m, msg_to m)
  ∧ ∃ me, utf8_decode identity = Some me
          ∧ (flags row = 2 → msg_to m = me)
          ∧ (flags row = 3 → msg_from m = me).
Proof.
  unfold classify. destruct (skip_row row) eqn:Hskip; [done|].
  destruct (skip_row_false row Hskip) as (Hflags & Ha & (t & Ht & Hne)).
  destruct (convert_date (date row) date_format) as [fmt_date|];
    simpl; [|done].
  destruct (convert_address row identity aliases) as [[from to]|] eqn:Haddr;
    simpl; [|done].
  intros [= <-]. cbn [msg_text msg_date msg_from msg_to].
  rewrite Ht. repeat (split; [done|]).
  unfold convert_address in Haddr.
  destruct (utf8_decode identity) as [me|]; simpl in Haddr; [|done].
  exists me. split; [done|].
  destruct (address row) as [a|]; simpl in Haddr; [|done].
  destruct (format_phone a) as [formatted|]; simpl in Haddr; [|done].
  destruct (Z.eqb_spec (flags row) 2) as [H2|H2].
  - injection Haddr as <- <-. split; [done|]. rewrite H2. done.
  - destruct (Z.eqb_spec (flags row) 3) as [H3|H3]; [|done].
    injection Haddr as <- <-. split; [done|]. done.
Qed.

(** X13: The loop of [main] does not look into a row it skips: the answer is
    the one for the kept rows alone, so a skipped row cannot make the run
    fail, whatever its date or address. *)
Theorem classify_rows_skips (date_format identity : string)
    (aliases : gmap Z string) (rows : list message_row)
    (messages : list message) :
  classify_rows date_format identity aliases rows messages
  = classify_rows date_format identity aliases
      (filter (λ r, skip_row r = false) rows) messages.
Proof.
  revert messages. induction rows as [|row rows IH]; intros messages; [done|].
  rewrite filter_cons. destruct (skip_row row) eqn:Hskip.
  - rewrite decide_False by done. cbn [classify_rows].
    unfold classify at 1. rewrite Hskip. apply IH.
  - rewrite decide_True by done. cbn [classify_rows].
    destruct (classify date_format identity aliases row); simpl; [|done].
    apply IH.
Qed.

(** X14: The first row that cannot be converted ends the loop with its
    exception: no message list is left, whatever rows came before or
    come after. *)
Theorem classify_rows_first_error (date_format identity : string)
    (aliases : gmap Z string) (l1 l2 : list message_row)
    (row : message_row) (messages : list message) (e : exn) :
  (∀ r, r ∈ l1 → is_Ok (classify date_format identity aliases r)) →
  classify date_format identity aliases row = Raise e →
  classify_rows date_format identity aliases (l1 ++ row :: l2) messages
  = Raise e.
Proof.
  revert messages. induction l1 as [|r l1 IH]; intros messages Hl1 Hrow.
  - cbn [app classify_rows]. by rewrite Hrow.
  - cbn [app classify_rows]. destruct (Hl1 r) as [m ->]; [by left|].
    rewrite res_bind_Ok. apply IH; [|done].
    intros r' Hr'. apply Hl1. by right.
Qed.

Lemma format_phone_ascii (phone : string) :
  string_forallb is_ascii phone = true → is_Ok (format_phone phone).
Proof.
  intros Hascii.
  destruct (format_phone_cases phone)
    as [[_ H]|[(?&?&?&?&?&?&?&?&?&?&_&H)
       |[(?&?&?&?&?&?&?&?&?&?&_&H)|[_ H]]]];
    rewrite H; try by eexists.
  unfold unicode_decode. rewrite Hascii. by eexists.
Qed.

(** X15: On a store whose addresses are ASCII text the loop always answers,
    with one message per kept row, as soon as the identity decodes and the
    dates of the kept rows convert. *)
Theorem classify_rows_ascii (date_format identity me : string)
    (aliases : gmap Z string) (rows : list message_row) :
  utf8_decode identity = Some me →
  (∀ r, r ∈ rows → skip_row r = false →
     is_Ok (convert_date (date r) date_format)
     ∧ ∀ a, address r = Some a → string_forallb is_ascii a = true) →
  ∃ messages,
    classify_rows date_format identity aliases rows [] = Ok messages
    ∧ length messages = length (filter (λ r, skip_row r = false) rows).
Proof.
  intros Hme Hrows.
  destruct (classify_rows_total date_format identity aliases rows [])
    as [messages Hmessages].
  { intros r Hr Hskip. destruct (Hrows r Hr Hskip) as [[fmt_date Hdate] Ha].
    destruct (skip_row_false r Hskip) as (Hflags & (a & Haddr & _) & _).
    destruct (format_phone_ascii a (Ha a Haddr)) as [formatted Hfmt].
    unfold classify, convert_address.
    rewrite Hskip, Hdate, Hme, Haddr, Hfmt. simpl.
    destruct Hflags as [-> | ->]; by eexists. }
  exists messages. split; [done|].
  apply classify_rows_spec in Hmessages as (new & -> & Hnew).
  by apply Forall2_length in Hnew.
Qed.


(** *** Renderer *)

Lemma substring_prefix (a b : string) :
  substring 0 (String.length a) (a +:+ b) = a.
Proof.
  induction a as [|c a IH]; [by destruct b|].
  change (String c a +:+ b) with (String c (a +:+ b)).
  cbn [String.length substring]. by rewrite IH.
Qed.

Lemma substring_skip (a b : string) (k n m : nat) :
  k = (String.length a + n)%nat →
  substring k m (a +:+ b) = substring n m b.
Proof.
  intros ->. induction a as [|c a IH]; [done|].
  change (String c a +:+ b) with (String c (a +:+ b)).
  cbn [String.length Nat.add substring]. apply IH.
Qed.

Ltac skip_field a n :=
  rewrite (substring_skip a _ _ n) by (cbn [String.length]; lia).

(** In a text of three fields and a rest, with a bar between neighbours,
    each bar stands right after its field. *)
Lemma bars_after_fields (f1 f2 f3 rest : string) (w1 w2 w3 : nat) :
  String.length f1 = w1 → String.length f2 = w2 → String.length f3 = w3 →
  String.length (f1 +:+ " | " +:+ f2 +:+ " | " +:+ f3 +:+ " | " +:+ rest)
  = (w1 + w2 + w3 + 9 + String.length rest)%nat
  ∧ substring w1 3 (f1 +:+ " | " +:+ f2 +:+ " | " +:+ f3 +:+ " | " +:+ rest)
    = " | "%string
  ∧ substring (w1 + 3 + w2) 3
      (f1 +:+ " | " +:+ f2 +:+ " | " +:+ f3 +:+ " | " +:+ rest)
    = " | "%string
  ∧ substring (w1 + 3 + w2 + 3 + w3) 3
      (f1 +:+ " | " +:+ f2 +:+ " | " +:+ f3 +:+ " | " +:+ rest)
    = " | "%string
  ∧ substring (w1 + 3 + w2 + 3 + w3 + 3) (String.length rest)
      (f1 +:+ " | " +:+ f2 +:+ " | " +:+ f3 +:+ " | " +:+ rest)
    = rest.
Proof.
  intros <- <- <-.
  assert (Hbar : ∀ s, substring 0 3 (" | " +:+ s) = " | "%string)
    by (intros s; apply (substring_prefix " | ")).
  split; [rewrite !string_length_app; cbn [String.length]; lia|].
  split; [skip_field f1 0%nat; apply Hbar|].
  split.
  { skip_field f1 (3 + String.length f2)%nat.
    skip_field " | "%string (String.length f2).
    skip_field f2 0%nat. apply Hbar. }
  split.
  { skip_field f1 (3 + String.length f2 + 3 + String.length f3)%nat.
    skip_field " | "%string (String.length f2 + 3 + String.length f3)%nat.
    skip_field f2 (3 + String.length f3)%nat.
    skip_field " | "%string (String.length f3).
    skip_field f3 0%nat. apply Hbar. }
  skip_field f1 (3 + String.length f2 + 3 + String.length f3 + 3)%nat.
  skip_field " | "%string (String.length f2 + 3 + String.length f3 + 3)%nat.
  skip_field f2 (3 + String.length f3 + 3)%nat.
  skip_field " | "%string (String.length f3 + 3)%nat.
  skip_field f3 3%nat. skip_field " | "%string 0%nat.
  apply substring_all.
Qed.

(** X17: On a non-empty list [msgs_human] fixes one width per column,
    that of the column's widest value or, if wider, of its title, and
    writes the header and one line per message: the date padded on the
    right, the sender and the recipient padded on the left, each to the
    width of its column, with a bar after each.  So the three bars stand
    at the same places in the header and in every line, whatever the
    values are, and the text follows the third bar; the output ends with
    an empty line. *)
Theorem msgs_human_aligned (messages : list message) (header : bool) :
  messages ≠ [] →
  ∃ date_width from_width to_width,
    let hrow :=
      ("Date" +:+ spaces (date_width - 4)) +:+ " | "
      +:+ ("From" +:+ spaces (from_width - 4)) +:+ " | "
      +:+ ("To" +:+ spaces (to_width - 2)) +:+ " | " +:+ "Text" in
    let line := λ m,
      (msg_date m +:+ spaces (date_width - String.length (msg_date m)))
      +:+ " | "
      +:+ (spaces (from_width - String.length (msg_from m)) +:+ msg_from m)
      +:+ " | "
      +:+ (spaces (to_width - String.length (msg_to m)) +:+ msg_to m)
      +:+ " | " +:+ msg_text m in
    msgs_human messages header =
    Ok (utf8_encode
          (String.concat (String "010" EmptyString)
             ((if header then [hrow] else [])
              ++ (line <$> messages) ++ [EmptyString])))
    ∧ (∀ m, m ∈ messages →
         String.length (msg_date m) ≤ date_width
         ∧ String.length (msg_from m) ≤ from_width
         ∧ String.length (msg_to m) ≤ to_width)%nat
    ∧ (4 ≤ date_width ∧ 4 ≤ from_width ∧ 2 ≤ to_width)%nat
    ∧ (date_width = 4%nat
       ∨ ∃ m, m ∈ messages ∧ String.length (msg_date m) = date_width)
    ∧ (from_width = 4%nat
       ∨ ∃ m, m ∈ messages ∧ String.length (msg_from m) = from_width)
    ∧ (to_width = 2%nat
       ∨ ∃ m, m ∈ messages ∧ String.length (msg_to m) = to_width)
    ∧ (∀ m, m ∈ messages →
         String.length (line m)
         = (date_width + from_width + to_width + 9
            + String.length (msg_text m))%nat
         ∧ substring date_width 3 (line m) = " | "%string
         ∧ substring (date_width + 3 + from_width) 3 (line m) = " | "%string
         ∧ substring (date_width + 3 + from_width + 3 + to_width) 3 (line m)
           = " | "%string
         ∧ substring (date_width + 3 + from_width + 3 + to_width + 3)
             (String.length (msg_text m)) (line m)
           = msg_text m)
    ∧ (String.length hrow = (date_width + from_width + to_width + 9 + 4)%nat
       ∧ substring date_width 3 hrow = " | "%string
       ∧ substring (date_width + 3 + from_width) 3 hrow = " | "%string
       ∧ substring (date_width + 3 + from_width + 3 + to_width) 3 hrow
         = " | "%string
       ∧ substring (date_width + 3 + from_width + 3 + to_width + 3) 4 hrow
         = "Text"%string).
Proof.
  intros Hne.
  destruct (msgs_human_text messages header Hne)
    as (dw & fw & tw & Htext & Hle & (Hd & Hf & Ht) & Hdw & Hfw & Htw).
  exists dw, fw, tw. cbv zeta.
  split; [exact Htext|]. split; [exact Hle|]. split; [done|].
  split; [exact Hdw|]. split; [exact Hfw|]. split; [exact Htw|]. split.
  - intros m Hm. destruct (Hle m Hm) as (Hmd & Hmf & Hmt).
    apply bars_after_fields;
      rewrite string_length_app, spaces_length; lia.
  - apply (bars_after_fields _ _ _ "Text");
      rewrite string_length_app, spaces_length; cbn [String.length]; lia.
Qed.

(** *** Finding the store *)

Lemma db_paths_length
    (walk : list (string * list string * list string)) :
  length (walk ≫= db_paths_in)
  = sum_list ((λ entry, length (filter is_db_name entry.2)) <$> walk).
Proof.
  induction walk as [|[[root dirs] files] walk IH]; [done|].
  change (((root, dirs, files) :: walk) ≫= db_paths_in)
    with (db_paths_in (root, dirs, files) ++ (walk ≫= db_paths_in)).
  rewrite length_app, IH. cbn [db_paths_in fmap list_fmap sum_list].
  by rewrite length_fmap.
Qed.

Lemma db_paths_elem (walk : list (string * list string * list string))
    (path : string) :
  path ∈ walk ≫= db_paths_in →
  ∃ root dirs files, (root, dirs, files) ∈ walk ∧ db_name ∈ files
                     ∧ path = path_join root db_name.
Proof.
  rewrite list_elem_of_bind.
  intros ([[root dirs] files] & Hpath & Hentry).
  cbn [db_paths_in] in Hpath.
  apply list_elem_of_fmap in Hpath as (basename & -> & Hbase).
  apply list_elem_of_filter in Hbase as [-> Hbase].
  by exists root, dirs, files.
Qed.

(** X18: [find_sms_db] counts the files of the store's name that the walk
    meets, over all directories: with exactly one it returns the path of
    that file under its directory, with none or with several it returns
    [None]. *)
Theorem find_sms_db_unique
    (walk : list (string * list string * list string)) :
  let total :=
    sum_list ((λ entry, length (filter is_db_name entry.2)) <$> walk) in
  (find_sms_db walk = None ↔ total ≠ 1%nat)
  ∧ (total = 1%nat → is_Some (find_sms_db walk))
  ∧ (∀ path, find_sms_db walk = Some path →
       total = 1%nat
       ∧ ∃ root dirs files, (root, dirs, files) ∈ walk ∧ db_name ∈ files
                            ∧ path = path_join root db_name).
Proof.
  intros total. unfold total. rewrite <- db_paths_length.
  pose proof (db_paths_elem walk) as Helem. unfold find_sms_db.
  destruct (walk ≫= db_paths_in) as [|p [|p' l]]; cbn [length].
  - split; [done|]. split; [done|]. done.
  - split; [done|]. split; [by eexists|].
    intros path [= <-]. split; [done|]. apply Helem. left.
  - split; [split; [lia|done]|]. split; [lia|done].
Qed.

End Engine.

(** ** The theorems at work on the sample snapshot *)

(** A whole run on the sample store, without filter or alias, in the
    human format: the rows come out by rowid, the incoming one first. *)
Example sample_run :
  (messages ← main_messages sample_db ascii_decode
                (λ _ _, Some "1970-01-01 00:00:00"%string)
                None "%Y-%m-%d %H:%M:%S" "Me" ∅;
   msgs_human id messages true)
  = Ok (String.concat (String "010" EmptyString)
          [ "Date                | From           | To             | Text";
            "1970-01-01 00:00:00 | (555) 555-1212 |             Me | hi";
            "1970-01-01 00:00:00 |             Me | (555) 555-1212 | yo";
            EmptyString ]%string).
Proof. reflexivity. Qed.

(** C1 on a request for a number the sample store does not know. *)
Lemma build_msg_query_unfiltered_sample :
  (∀ l n, Some ["99999"%string] = Some l → n ∈ l →
          query_group_ids sample_db n = None)
  ∧ build_msg_query sample_db (Some ["99999"%string]) = (select_all, [])
  ∧ ∃ rows,
      execute sample_db
        (build_msg_query sample_db (Some ["99999"%string])).1
        (build_msg_query sample_db (Some ["99999"%string])).2 = Some rows
      ∧ rows ≡ₚ message_table sample_db
      ∧ (∀ r, r ∈ rows ↔ r ∈ message_table sample_db)
      ∧ (message_table sample_db ≠ [] → rows ≠ []).
Proof.
  assert (Hnone : ∀ l n, Some ["99999"%string] = Some l → n ∈ l →
                         query_group_ids sample_db n = None).
  { intros l n [= <-] Hn. apply list_elem_of_singleton in Hn as ->.
    reflexivity. }
  split; [exact Hnone|].
  exact (build_msg_query_unfiltered sample_db (Some ["99999"%string]) Hnone).
Defined.

(** C2 as stated fails: the group of a number stored under two spellings
    comes back twice. *)
Lemma query_group_ids_repeats_group :
  query_group_ids sample_db "5555551212" = Some [7; 7]
  ∧ ¬ NoDup (default [] (query_group_ids sample_db "5555551212")).
Proof.
  split; [reflexivity|].
  change (¬ NoDup [7; 7]). intros Hnodup.
  apply NoDup_cons in Hnodup as [Hnotin _]. apply Hnotin. left.
Qed.



(** The sample store with a filter on its number: two parameters, and
    [main] stops at its second logging call.  With either table order and
    no filter the three renderers write the incoming message first. *)
Example main_messages_sample :
  main_messages sample_db ascii_decode epoch_strftime
    (Some ["5555551212"%string]) "%Y" "Me" ∅ = Raise TypeError
  ∧ (messages ← main_messages sample_db ascii_decode epoch_strftime
                  None "%Y" "Me" ∅;
     Ok (msgs_csv id plain_writerow messages true,
         msgs_json id quoted messages true))
    = Ok (String.concat (String "013" (String "010" EmptyString))
            [ quoted "Date" +:+ "," +:+ quoted "From" +:+ ","
              +:+ quoted "To" +:+ "," +:+ quoted "Text";
              quoted "1970-01-01 00:00:00" +:+ ","
              +:+ quoted "(555) 555-1212" +:+ "," +:+ quoted "Me" +:+ ","
              +:+ quoted "hi";
              quoted "1970-01-01 00:00:00" +:+ "," +:+ quoted "Me" +:+ ","
              +:+ quoted "(555) 555-1212" +:+ "," +:+ quoted "yo";
              EmptyString ]%string,
          String.concat (String "010" EmptyString)
            [ "[";
              "  {";
              "    " +:+ quoted "date" +:+ ": "
              +:+ quoted "1970-01-01 00:00:00" +:+ ", ";
              "    " +:+ quoted "from" +:+ ": " +:+ quoted "(555) 555-1212"
              +:+ ", ";
              "    " +:+ quoted "text" +:+ ": " +:+ quoted "hi" +:+ ", ";
              "    " +:+ quoted "to" +:+ ": " +:+ quoted "Me";
              "  }, ";
              "  {";
              "    " +:+ quoted "date" +:+ ": "
              +:+ quoted "1970-01-01 00:00:00" +:+ ", ";
              "    " +:+ quoted "from" +:+ ": " +:+ quoted "Me" +:+ ", ";
              "    " +:+ quoted "text" +:+ ": " +:+ quoted "yo" +:+ ", ";
              "    " +:+ quoted "to" +:+ ": " +:+ quoted "(555) 555-1212";
              "  }";
              "]" ]%string).
Proof. split; reflexivity. Qed.

(** C5 as stated fails: a British number keeps its plus sign and its
    blanks. *)
Lemma format_phone_keeps_punctuation :
  (11 < len (strip "+44 20 7946 0958")
   ∨ (len (strip "+44 20 7946 0958") = 11
      ∧ first_char (strip "+44 20 7946 0958") ≠ Some "1"%char))
  ∧ strip "+44 20 7946 0958" = "442079460958"%string
  ∧ format_phone "+44 20 7946 0958" = Ok "+44 20 7946 0958"%string
  ∧ format_phone "+44 20 7946 0958" ≠ Ok (strip "+44 20 7946 0958").
Proof.
  split; [left; reflexivity|]. split; [reflexivity|].
  split; [reflexivity|]. discriminate.
Qed.

(** C5 (amended) on the same number. *)
Lemma format_phone_leaves_as_is_sample :
  (11 < len (strip "+44 20 7946 0958")
   ∨ (len (strip "+44 20 7946 0958") = 11
      ∧ first_char (strip "+44 20 7946 0958") ≠ Some "1"%char))
  ∧ format_phone "+44 20 7946 0958" =
      (if string_forallb is_ascii "+44 20 7946 0958"
       then Ok "+44 20 7946 0958"%string else Raise UnicodeError)
  ∧ (format_phone "+44 20 7946 0958" = Ok (strip "+44 20 7946 0958")
     ↔ strip "+44 20 7946 0958" = "+44 20 7946 0958"%string).
Proof.
  assert (Hcase : 11 < len (strip "+44 20 7946 0958")
                  ∨ (len (strip "+44 20 7946 0958") = 11
                     ∧ first_char (strip "+44 20 7946 0958")
                       ≠ Some "1"%char))
    by (left; reflexivity).
  split; [exact Hcase|].
  exact (format_phone_leaves_as_is "+44 20 7946 0958" Hcase).
Defined.

(** C6 on the number of the sample store. *)
Lemma format_phone_country_code_sample :
  string_forallb is_digit "15555551212" = true
  ∧ len "15555551212" = 11
  ∧ first_char "15555551212" = Some "1"%char
  ∧ format_phone "15555551212" = format_phone (slice_from "15555551212" 1)
  ∧ format_phone "15555551212" =
      Ok ("(" +:+ slice "15555551212" 1 4 +:+ ") "
          +:+ slice "15555551212" 4 7 +:+ "-" +:+ slice "15555551212" 7 11).
Proof.
  split; [reflexivity|]. split; [reflexivity|]. split; [reflexivity|].
  exact (format_phone_country_code "15555551212" eq_refl eq_refl eq_refl).
Defined.

(** C7 on one alias for the stored number and one for an unknown number. *)
Lemma alias_map_keys_resolved_sample :
  let aliases := ["5555551212=Alice"; "99999=Nobody"]%string in
  validate_aliases (Some aliases) = Ok ()
  ∧ ((∀ a number name, a ∈ aliases → match_alias a = Some (number, name) →
        is_Some (query_group_ids sample_db number) →
        is_Some (ascii_decode name)) →
     is_Ok (alias_map sample_db ascii_decode (Some aliases)))
  ∧ (∀ result gid,
       alias_map sample_db ascii_decode (Some aliases) = Ok result →
       gid ∈ dom result →
       ∃ a number name group_ids,
         a ∈ aliases ∧ match_alias a = Some (number, name)
         ∧ query_group_ids sample_db number = Some group_ids
         ∧ gid ∈ group_ids)
  ∧ (∀ l1 a l2 number name,
       aliases = l1 ++ a :: l2 →
       match_alias a = Some (number, name) →
       query_group_ids sample_db number = None →
       alias_map sample_db ascii_decode (Some aliases)
       = alias_map sample_db ascii_decode (Some (l1 ++ l2))).
Proof.
  split; [reflexivity|].
  exact (alias_map_keys_resolved sample_db ascii_decode
           ["5555551212=Alice"; "99999=Nobody"]%string eq_refl).
Defined.

(** C10 on two aliases for the two spellings of the stored number. *)
Lemma alias_map_last_wins_sample :
  match_alias "(555) 555-1212=Bob" = Some ("(555) 555-1212", "Bob")%string
  ∧ query_group_ids sample_db "(555) 555-1212" = Some [7; 7]
  ∧ query_group_ids sample_db "5555551212" = Some [7; 7]
  ∧ alias_map sample_db ascii_decode
      (Some (["5555551212=Alice"%string] ++ ["(555) 555-1212=Bob"%string]))
    = Ok {[7 := "Bob"%string]}
  ∧ ({[7 := "Bob"%string]} : gmap Z string) !! 7 = ascii_decode "Bob".
Proof.
  split; [reflexivity|]. split; [reflexivity|]. split; [reflexivity|].
  split; [reflexivity|].
  refine (alias_map_last_wins sample_db ascii_decode
            ["5555551212=Alice"%string] [] "(555) 555-1212=Bob"
            "(555) 555-1212" "Bob" [7; 7] 7 {[7 := "Bob"%string]}
            eq_refl eq_refl _ _ eq_refl).
  - left.
  - intros a' number' name' group_ids' Hin. by apply elem_of_nil in Hin.
Defined.

(** ** The further properties at work *)

(** A seven-digit number written with a dash. *)
Lemma format_phone_short_digits_sample :
  len (strip "555-1212") < 10
  ∧ format_phone "555-1212" = Ok (strip "555-1212")
  ∧ string_forallb is_digit (strip "555-1212") = true.
Proof.
  split; [reflexivity|].
  exact (format_phone_short_digits "555-1212" eq_refl).
Defined.

(** Ten digits written with dots. *)
Lemma format_phone_ten_digits_sample :
  len (strip "555.555.1212") = 10
  ∧ ∃ formatted,
      format_phone "555.555.1212" = Ok formatted
      ∧ formatted = "(" +:+ slice (strip "555.555.1212") 0 3 +:+ ") "
                    +:+ slice (strip "555.555.1212") 3 6 +:+ "-"
                    +:+ slice (strip "555.555.1212") 6 10
      ∧ len formatted = 14
      ∧ strip formatted = strip "555.555.1212".
Proof.
  split; [reflexivity|].
  exact (format_phone_ten_digits "555.555.1212" eq_refl).
Defined.

(** The international spelling of the stored number and its display
    form. *)
Lemma format_phone_same_number_sample :
  format_phone "+1 (555) 555-1212" = Ok "(555) 555-1212"%string
  ∧ format_phone "(555) 555-1212" = Ok "(555) 555-1212"%string
  ∧ slice_from (strip "(555) 555-1212") (-10)
    = slice_from (strip "+1 (555) 555-1212") (-10)
  ∧ query_group_ids sample_db "(555) 555-1212"
    = query_group_ids sample_db "+1 (555) 555-1212".
Proof.
  split; [reflexivity|].
  exact (format_phone_same_number sample_db "+1 (555) 555-1212"
           "(555) 555-1212" eq_refl).
Defined.

(** One alias for the stored number. *)
Lemma alias_map_entries_sample :
  alias_map sample_db ascii_decode (Some ["5555551212=Alice"%string])
  = Ok {[7 := "Alice"%string]}
  ∧ (∀ a number name group_ids gid,
       a ∈ ["5555551212=Alice"%string] →
       match_alias a = Some (number, name) →
       query_group_ids sample_db number = Some group_ids →
       gid ∈ group_ids →
       gid ∈ dom ({[7 := "Alice"%string]} : gmap Z string))
  ∧ (∀ gid alias,
       ({[7 := "Alice"%string]} : gmap Z string) !! gid = Some alias →
       ∃ a number name group_ids,
         a ∈ ["5555551212=Alice"%string]
         ∧ match_alias a = Some (number, name)
         ∧ query_group_ids sample_db number = Some group_ids
         ∧ gid ∈ group_ids
         ∧ ascii_decode name = Some alias).
Proof.
  split; [reflexivity|].
  exact (alias_map_entries sample_db ascii_decode
           ["5555551212=Alice"%string] {[7 := "Alice"%string]} eq_refl).
Defined.

(** A request for an unknown and for the stored number: its two spellings
    make two parameters, and [main] does not get to the rows. *)
Lemma build_msg_query_filtered_sample :
  let numbers := ["99999"; "5555551212"]%string in
  let params := numbers ≫= λ n, default [] (query_group_ids sample_db n) in
  "5555551212"%string ∈ numbers
  ∧ query_group_ids sample_db "5555551212" = Some [7; 7]
  ∧ build_msg_query sample_db (Some numbers)
    = (select_in (question_marks_placeholder (length params)), params)
  ∧ params ≠ []
  ∧ ∃ rows,
      execute sample_db (build_msg_query sample_db (Some numbers)).1
              (build_msg_query sample_db (Some numbers)).2 = Some rows
      ∧ rows ≡ₚ filter (λ r, group_id r ∈ params) (message_table sample_db)
      ∧ (∀ r, r ∈ rows ↔
           r ∈ message_table sample_db
           ∧ ∃ n' gids', n' ∈ numbers
                         ∧ query_group_ids sample_db n' = Some gids'
                         ∧ group_id r ∈ gids')
      ∧ (∀ date_format identity aliases,
           (length params = 1%nat →
            main_messages sample_db ascii_decode epoch_strftime
              (Some numbers) date_format identity aliases
            = classify_rows ascii_decode epoch_strftime
                date_format identity aliases rows [])
           ∧ ((2 ≤ length params)%nat →
              main_messages sample_db ascii_decode epoch_strftime
                (Some numbers) date_format identity aliases
              = Raise TypeError)).
Proof.
  assert (Hin : "5555551212"%string ∈ ["99999"; "5555551212"]%string)
    by (right; left).
  split; [exact Hin|]. split; [reflexivity|].
  exact (build_msg_query_filtered sample_db ascii_decode epoch_strftime
           ["99999"; "5555551212"]%string "5555551212" [7; 7] Hin eq_refl).
Defined.

(** The incoming message of the sample store. *)
Lemma classify_message_sample :
  let row := {| rowid := 1; date := 0; address := Some "5555551212"%string;
                text := Some "hi"%string; flags := 2; group_id := 7 |} in
  let m := {| msg_date := "1970-01-01 00:00:00"; msg_from := "(555) 555-1212";
              msg_to := "Me"; msg_text := "hi" |} in
  classify ascii_decode epoch_strftime "%Y" "Me" ∅ row = Ok (Some m)
  ∧ skip_row row = false
  ∧ (flags row = 2 ∨ flags row = 3)
  ∧ (∃ a, address row = Some a ∧ a ≠ EmptyString)
  ∧ text row = Some (msg_text m) ∧ msg_text m ≠ EmptyString
  ∧ convert_date ascii_decode epoch_strftime (date row) "%Y"
    = Ok (msg_date m)
  ∧ convert_address ascii_decode row "Me" ∅ = Ok (msg_from m, msg_to m)
  ∧ ∃ me, ascii_decode "Me" = Some me
          ∧ (flags row = 2 → msg_to m = me)
          ∧ (flags row = 3 → msg_from m = me).
Proof.
  split; [reflexivity|].
  exact (classify_message ascii_decode epoch_strftime "%Y" "Me" ∅
           {| rowid := 1; date := 0; address := Some "5555551212"%string;
              text := Some "hi"%string; flags := 2; group_id := 7 |}
           {| msg_date := "1970-01-01 00:00:00";
              msg_from := "(555) 555-1212";
              msg_to := "Me"; msg_text := "hi" |} eq_refl).
Defined.

(** A row dated before the epoch, which the sample clock refuses, between
    the two rows of the sample store. *)
Lemma classify_rows_first_error_sample :
  let r1 := {| rowid := 1; date := 0; address := Some "5555551212"%string;
               text := Some "hi"%string; flags := 2; group_id := 7 |} in
  let bad := {| rowid := 2; date := -1; address := Some "5555551212"%string;
                text := Some "?"%string; flags := 2; group_id := 7 |} in
  let r3 := {| rowid := 3; date := 60; address := Some "5555551212"%string;
               text := Some "yo"%string; flags := 3; group_id := 7 |} in
  (∀ r, r ∈ [r1] → is_Ok (classify ascii_decode epoch_strftime "%Y" "Me" ∅ r))
  ∧ classify ascii_decode epoch_strftime "%Y" "Me" ∅ bad = Raise ValueError
  ∧ classify_rows ascii_decode epoch_strftime "%Y" "Me" ∅
      ([r1] ++ bad :: [r3]) [] = Raise ValueError.
Proof.
  intros r1 bad r3.
  assert (Hl1 : ∀ r, r ∈ [r1] →
            is_Ok (classify ascii_decode epoch_strftime "%Y" "Me" ∅ r)).
  { intros r Hr. apply list_elem_of_singleton in Hr as ->. by eexists. }
  split; [exact Hl1|]. split; [reflexivity|].
  exact (classify_rows_first_error ascii_decode epoch_strftime "%Y" "Me" ∅
           [r1] [r3] bad [] ValueError Hl1 eq_refl).
Defined.

(** The two rows of the sample store. *)
Lemma classify_rows_ascii_sample :
  (ascii_decode "Me" = Some "Me"%string)
  ∧ (∀ r, r ∈ message_table sample_db → skip_row r = false →
       is_Ok (convert_date ascii_decode epoch_strftime (date r) "%Y")
       ∧ ∀ a, address r = Some a → string_forallb is_ascii a = true)
  ∧ ∃ messages,
      classify_rows ascii_decode epoch_strftime "%Y" "Me" ∅
        (message_table sample_db) [] = Ok messages
      ∧ length messages
        = length (filter (λ r, skip_row r = false) (message_table sample_db)).
Proof.
  assert (Hrows : ∀ r, r ∈ message_table sample_db → skip_row r = false →
            is_Ok (convert_date ascii_decode epoch_strftime (date r) "%Y")
            ∧ ∀ a, address r = Some a → string_forallb is_ascii a = true).
  { intros r Hr _. cbn [message_table sample_db] in Hr.
    apply elem_of_cons in Hr as [->|Hr];
      [|apply list_elem_of_singleton in Hr as ->];
      (split; [by eexists|by intros a [= <-]]). }
  split; [reflexivity|]. split; [exact Hrows|].
  exact (classify_rows_ascii ascii_decode epoch_strftime "%Y" "Me" "Me" ∅
           (message_table sample_db) eq_refl Hrows).
Defined.


(** The two messages of the sample store: the date and the number are
    wider than the titles of their columns, the identity is narrower. *)
Lemma msgs_human_aligned_sample :
  let messages :=
    [ {| msg_date := "1970-01-01 00:00:00"; msg_from := "(555) 555-1212";
         msg_to := "Me"; msg_text := "hi" |};
      {| msg_date := "1970-01-01 00:01:00"; msg_from := "Me";
         msg_to := "(555) 555-1212"; msg_text := "yo, there" |} ] in
  messages ≠ []
  ∧ ∃ date_width from_width to_width,
      let hrow :=
        ("Date" +:+ spaces (date_width - 4)) +:+ " | "
        +:+ ("From" +:+ spaces (from_width - 4)) +:+ " | "
        +:+ ("To" +:+ spaces (to_width - 2)) +:+ " | " +:+ "Text" in
      let line := λ m,
        (msg_date m +:+ spaces (date_width - String.length (msg_date m)))
        +:+ " | "
        +:+ (spaces (from_width - String.length (msg_from m)) +:+ msg_from m)
        +:+ " | "
        +:+ (spaces (to_width - String.length (msg_to m)) +:+ msg_to m)
        +:+ " | " +:+ msg_text m in
      msgs_human id messages true =
      Ok (id
            (String.concat (String "010" EmptyString)
               ((if true then [hrow] else [])
                ++ (line <$> messages) ++ [EmptyString])))
      ∧ (∀ m, m ∈ messages →
           String.length (msg_date m) ≤ date_width
           ∧ String.length (msg_from m) ≤ from_width
           ∧ String.length (msg_to m) ≤ to_width)%nat
      ∧ (4 ≤ date_width ∧ 4 ≤ from_width ∧ 2 ≤ to_width)%nat
      ∧ (date_width = 4%nat
         ∨ ∃ m, m ∈ messages ∧ String.length (msg_date m) = date_width)
      ∧ (from_width = 4%nat
         ∨ ∃ m, m ∈ messages ∧ String.length (msg_from m) = from_width)
      ∧ (to_width = 2%nat
         ∨ ∃ m, m ∈ messages ∧ String.length (msg_to m) = to_width)
      ∧ (∀ m, m ∈ messages →
           String.length (line m)
           = (date_width + from_width + to_width + 9
              + String.length (msg_text m))%nat
           ∧ substring date_width 3 (line m) = " | "%string
           ∧ substring (date_width + 3 + from_width) 3 (line m)
             = " | "%string
           ∧ substring (date_width + 3 + from_width + 3 + to_width) 3
               (line m)
             = " | "%string
           ∧ substring (date_width + 3 + from_width + 3 + to_width + 3)
               (String.length (msg_text m)) (line m)
             = msg_text m)
      ∧ (String.length hrow
         = (date_width + from_width + to_width + 9 + 4)%nat
         ∧ substring date_width 3 hrow = " | "%string
         ∧ substring (date_width + 3 + from_width) 3 hrow = " | "%string
         ∧ substring (date_width + 3 + from_width + 3 + to_width) 3 hrow
           = " | "%string
         ∧ substring (date_width + 3 + from_width + 3 + to_width + 3) 4 hrow
           = "Text"%string).
Proof.
  intros messages.
  assert (Hne : messages ≠ []) by done.
  split; [exact Hne|].
  exact (msgs_human_aligned id messages true Hne).
Defined.

(** A walk that meets one store, and a walk that meets two. *)
Example find_sms_db_sample :
  find_sms_db
    [ ("/Users/me/Library/Application Support/MobileSync", ["Backup"], []);
      ("/Users/me/Library/Application Support/MobileSync/Backup", ["a1"], []);
      ("/Users/me/Library/Application Support/MobileSync/Backup/a1", [],
       ["Info.plist"; db_name]) ]%string
  = Some ("/Users/me/Library/Application Support/MobileSync/Backup/a1/"
          +:+ db_name)
  ∧ find_sms_db [ ("/b/a1", [], [db_name]); ("/b/a2", [], [db_name]) ]%string
    = None.
Proof. split; reflexivity. Qed.
